(** * CogniTask AI: the task store, the prioritisation queries, the AI draft
      adapter and the hierarchy roots, embedded from [database.py],
      [gemini_utils.py] and [app.py].

    Conventions of the embedding.
    - A [datetime] is an integer [Z]: microseconds since the epoch, UTC.
      SQL [NULL] and Python [None] are [None] of an [option].
    - A Python [str] is a [string]; a character stands for the code point of
      the same number (code points below 256).
    - The [tasks] table is the list of its rows in insertion order, together
      with a counter that new primary keys are taken from. SQLite takes one
      more than the largest key in the table, so it can hand the key of a
      deleted last row out again where the counter does not; the statements
      use of the keys only that they are distinct.
    - The clock ([datetime.now]) and the UUID generator are inputs of the
      operations that read them. *)

From Stdlib Require Import ZArith List String Ascii Bool Lia DecimalString.
From Stdlib Require Import Sorted Permutation.
From stdpp Require Import base gmap strings.
Import ListNotations.

Local Open Scope string_scope.
Local Open Scope Z_scope.
Local Open Scope list_scope.

(** ** database.py *)

Module database.

(** [PRIORITY_ORDER], [VALID_STATUSES], [VALID_PRIORITIES]. *)
Definition VALID_STATUSES : list string := ["todo"; "inprogress"; "done"; "blocked"].
Definition VALID_PRIORITIES : list string := ["low"; "medium"; "high"; "urgent"].

(** Python's [x in xs] on a list of strings. *)
Definition str_in (x : string) (xs : list string) : bool :=
  existsb (String.eqb x) xs.

(** [class Task(Base)]: one row of the [tasks] table. *)
Record Task : Type := mkTask {
  id : Z;
  task_id : string;
  title : string;
  description : option string;
  status : string;
  priority : string;
  due_date : option Z;
  parent_task_id : option string;
  created_at : Z;
  updated_at : Z
}.

(** The database behind a [Session]: the rows of [tasks] in insertion order
    and the counter that new primary keys are taken from. *)
Record Session : Type := mkSession {
  tasks : list Task;
  sqlite_sequence : Z
}.

(** *** The query combinators the module uses *)

Definition query (db : Session) : list Task := tasks db.

Definition count (rows : list Task) : Z := Z.of_nat (List.length rows).

Definition first (rows : list Task) : option Task :=
  match rows with
  | [] => None
  | r :: _ => Some r
  end.

(** One clause of an ORDER BY: how two rows compare under it. *)
Definition order_clause : Type := Task -> Task -> comparison.

Definition asc (key : Task -> Z) : order_clause :=
  fun a b => Z.compare (key a) (key b).

Definition desc (key : Task -> Z) : order_clause :=
  fun a b => Z.compare (key b) (key a).

(** [col.asc().nullslast()] on a nullable column. *)
Definition asc_nullslast (key : Task -> option Z) : order_clause :=
  fun a b =>
    match key a, key b with
    | Some x, Some y => Z.compare x y
    | Some _, None => Lt
    | None, Some _ => Gt
    | None, None => Eq
    end.

(** Several clauses compare lexicographically, the first one first. *)
Fixpoint order_cmp (clauses : list order_clause) (a b : Task) : comparison :=
  match clauses with
  | [] => Eq
  | c :: rest =>
      match c a b with
      | Eq => order_cmp rest a b
      | r => r
      end
  end.

Fixpoint insert_row (cmp : Task -> Task -> comparison) (x : Task)
    (rows : list Task) : list Task :=
  match rows with
  | [] => [x]
  | y :: rest =>
      match cmp x y with
      | Gt => y :: insert_row cmp x rest
      | _ => x :: rows
      end
  end.

(** [.order_by(...)]: the rows sorted by the clauses (a stable sort; SQL
    leaves the order of rows with equal keys open). *)
Definition order_by (clauses : list order_clause) (rows : list Task) : list Task :=
  fold_right (insert_row (order_cmp clauses)) [] rows.

(** *** CRUD operations *)

(** [create_task]. [new_task_id] is what [generate_task_id()] returns;
    [now_created] and [now_updated] are the two readings of the clock that
    the column defaults of [created_at] and [updated_at] take. *)
Definition create_task (db : Session) (new_task_id : string)
    (now_created now_updated : Z)
    (title : string) (description : option string)
    (status : string) (priority : string)
    (due_date : option Z) (parent_task_id : option string) : Session * Task :=
  let task :=
    {| id := sqlite_sequence db + 1;
       task_id := new_task_id;
       title := title;
       description := description;
       status := if str_in status VALID_STATUSES then status else "todo";
       priority := if str_in priority VALID_PRIORITIES then priority else "medium";
       due_date := due_date;
       parent_task_id := parent_task_id;
       created_at := now_created;
       updated_at := now_updated |} in
  ({| tasks := tasks db ++ [task]; sqlite_sequence := sqlite_sequence db + 1 |},
   task).

Definition get_task_by_id (db : Session) (tid : string) : option Task :=
  first (List.filter (fun t => String.eqb (task_id t) tid) (query db)).

Definition get_incomplete_tasks (db : Session) : list Task :=
  List.filter (fun t => str_in (status t) ["todo"; "inprogress"]) (query db).

(** SQL [parent_task_id = :tid]: never true of a NULL. *)
Definition parent_is (tid : string) (t : Task) : bool :=
  match parent_task_id t with
  | Some p => String.eqb p tid
  | None => false
  end.

Definition get_subtasks (db : Session) (tid : string) : list Task :=
  order_by [asc created_at] (List.filter (parent_is tid) (query db)).

Definition has_subtasks (db : Session) (tid : string) : bool :=
  0 <? count (List.filter (parent_is tid) (query db)).

(** The fields [update_task] assigns, in the order of its [if]s. *)
Definition apply_update (task : Task)
    (title description status priority : option string)
    (due_date : option Z) (parent_task_id : option string)
    (clear_due_date clear_parent : bool) (now : Z) : Task :=
  let title' := match title with Some v => v | None => database.title task end in
  let description' :=
    match description with Some v => Some v | None => database.description task end in
  let status' :=
    match status with
    | Some v => if str_in v VALID_STATUSES then v else database.status task
    | None => database.status task
    end in
  let priority' :=
    match priority with
    | Some v => if str_in v VALID_PRIORITIES then v else database.priority task
    | None => database.priority task
    end in
  let due1 := match due_date with Some v => Some v | None => database.due_date task end in
  let due2 := if clear_due_date then None else due1 in
  let parent1 :=
    match parent_task_id with Some v => Some v | None => database.parent_task_id task end in
  let parent2 := if clear_parent then None else parent1 in
  {| id := id task;
     task_id := task_id task;
     title := title';
     description := description';
     status := status';
     priority := priority';
     due_date := due2;
     parent_task_id := parent2;
     created_at := created_at task;
     updated_at := now |}.

(** The UPDATE a commit flushes: the row with the object's primary key is
    replaced, every other row is left alone. *)
Definition store_row (task' : Task) (rows : list Task) : list Task :=
  List.map (fun r => if Z.eqb (id r) (id task') then task' else r) rows.

(** [update_task]: [None] when the task is not found. *)
Definition update_task (db : Session) (tid : string)
    (title description status priority : option string)
    (due_date : option Z) (parent_task_id : option string)
    (clear_due_date clear_parent : bool) (now : Z) : Session * option Task :=
  match get_task_by_id db tid with
  | None => (db, None)
  | Some task =>
      let task' := apply_update task title description status priority
                     due_date parent_task_id clear_due_date clear_parent now in
      ({| tasks := store_row task' (tasks db);
          sqlite_sequence := sqlite_sequence db |},
       Some task')
  end.

(** [delete_task]: the DELETE goes by the primary key of the object found. *)
Definition delete_task (db : Session) (tid : string) : Session * bool :=
  match get_task_by_id db tid with
  | None => (db, false)
  | Some task =>
      if has_subtasks db tid then (db, false)
      else
        ({| tasks := List.filter (fun r => negb (Z.eqb (id r) (id task))) (tasks db);
            sqlite_sequence := sqlite_sequence db |},
         true)
  end.

(** The [case(...)] of [get_next_priority_task], on the priority column. *)
Definition priority_rank (p : string) : Z :=
  if String.eqb p "urgent" then 4
  else if String.eqb p "high" then 3
  else if String.eqb p "medium" then 2
  else if String.eqb p "low" then 1
  else 0.

Definition priority_case (t : Task) : Z := priority_rank (priority t).

Definition get_next_priority_task (db : Session) : option Task :=
  first
    (order_by [desc priority_case; asc_nullslast due_date; asc created_at]
       (List.filter (fun t => str_in (status t) ["todo"; "inprogress"]) (query db))).

(** The dict [get_task_stats] returns. *)
Record Stats : Type := mkStats {
  total : Z;
  todo : Z;
  inprogress : Z;
  done : Z;
  blocked : Z;
  overdue : Z
}.

(** SQL [due_date < :now]: not true of a NULL. *)
Definition due_before (now : Z) (t : Task) : bool :=
  match due_date t with
  | Some d => d <? now
  | None => false
  end.

Definition get_task_stats (db : Session) (now : Z) : Stats :=
  {| total := count (query db);
     todo := count (List.filter (fun t => String.eqb (status t) "todo") (query db));
     inprogress :=
       count (List.filter (fun t => String.eqb (status t) "inprogress") (query db));
     done := count (List.filter (fun t => String.eqb (status t) "done") (query db));
     blocked := count (List.filter (fun t => String.eqb (status t) "blocked") (query db));
     overdue :=
       count (List.filter
                (fun t => due_before now t && str_in (status t) ["todo"; "inprogress"])
                (query db)) |}.

(** *** The other listings *)

(** [get_all_tasks]: every row, newest first. *)
Definition get_all_tasks (db : Session) : list Task :=
  order_by [desc created_at] (query db).

(** [get_tasks_by_status]. *)
Definition get_tasks_by_status (db : Session) (wanted : string) : list Task :=
  order_by [desc created_at]
    (List.filter (fun t => String.eqb (status t) wanted) (query db)).

(** SQL [parent_task_id IS NULL], which [Task.parent_task_id == None] is. *)
Definition parent_is_null (t : Task) : bool :=
  match parent_task_id t with
  | None => true
  | Some _ => false
  end.

(** [get_root_tasks]. *)
Definition get_root_tasks (db : Session) : list Task :=
  order_by [desc created_at] (List.filter parent_is_null (query db)).

End database.

(** ** gemini_utils.py *)

Module gemini_utils.

(** What [json.loads] builds. A float is kept as its IEEE-754 binary64 bit
    pattern; a JSON object becomes a [dict], a finite map on its keys. *)
#[warnings="-register-all"]
Inductive json : Type :=
| JNull
| JBool (b : bool)
| JInt (n : Z)
| JFloat (bits : Z)
| JStr (s : string)
| JList (items : list json)
| JObj (members : gmap string json).

(** What the Gemini call comes to; [call_gemini] turns the first three into
    [None]. *)
Inductive gemini_reply : Type :=
| not_configured
| api_error
| json_decode_error
| response_json (v : json).

Definition call_gemini (reply : gemini_reply) : option json :=
  match reply with
  | response_json v => Some v
  | _ => None
  end.

(** Exceptions the two adapters let escape, and what a call comes to. *)
Inductive exn : Type := TypeError | AttributeError.

Inductive result (A : Type) : Type :=
| Return (a : A)
| Raise (e : exn).
Arguments Return {A} a.
Arguments Raise {A} e.

(** *** Python's built-ins on these values *)

(** [str.isspace] of one character: TAB..CR, FS..US, SPACE, NEL, NBSP. *)
Definition isspace (c : ascii) : bool :=
  let n := nat_of_ascii c in
  ((9 <=? n) && (n <=? 13) || (28 <=? n) && (n <=? 32)
   || (n =? 133) || (n =? 160))%nat.

Fixpoint lstrip (s : string) : string :=
  match s with
  | EmptyString => EmptyString
  | String c rest => if isspace c then lstrip rest else s
  end.

Fixpoint rstrip (s : string) : string :=
  match s with
  | EmptyString => EmptyString
  | String c rest =>
      match rstrip rest with
      | EmptyString => if isspace c then EmptyString else String c EmptyString
      | kept => String c kept
      end
  end.

(** [s.strip()]. *)
Definition strip (s : string) : string := rstrip (lstrip s).

(** [s[:n]]. *)
Fixpoint slice_to (n : nat) (s : string) : string :=
  match n, s with
  | S n', String c rest => String c (slice_to n' rest)
  | _, _ => EmptyString
  end.

(** [needle in s] on two strings. *)
Fixpoint str_contains (needle s : string) : bool :=
  String.prefix needle s
  || match s with
     | EmptyString => false
     | String _ rest => str_contains needle rest
     end.

(** Truth value of an object in an [if] or an [and]. *)
Definition truthy (v : json) : bool :=
  match v with
  | JNull => false
  | JBool b => b
  | JInt n => negb (n =? 0)
  | JFloat bits => negb (Z.land bits (2 ^ 63 - 1) =? 0)
  | JStr s => negb (String.eqb s "")
  | JList items => match items with [] => false | _ :: _ => true end
  | JObj members => negb (bool_decide (members = ∅))
  end.

(** [v == "text"]: only a [str] equals a [str]. *)
Definition eq_str (text : string) (v : json) : bool :=
  match v with
  | JStr s => String.eqb s text
  | _ => false
  end.

(** ["key" in v]. *)
Definition py_in (key : string) (v : json) : result bool :=
  match v with
  | JObj members => Return (bool_decide (is_Some (members !! key)))
  | JList items => Return (existsb (eq_str key) items)
  | JStr s => Return (str_contains key s)
  | JNull | JBool _ | JInt _ | JFloat _ => Raise TypeError
  end.

(** [d.get(key)], the default being [None]. *)
Definition dict_get (members : gmap string json) (key : string) : json :=
  match members !! key with
  | Some v => v
  | None => JNull
  end.

(** The dict [parse_task_input] returns. *)
Record TaskDraft : Type := mkDraft {
  title : string;
  description : json;
  priority : string;
  due_date : json
}.

Section Adapters.

(** [str(v)] of a float, a list or a dict: their text is only sliced and
    stripped below, never looked into. *)
Variable repr : json -> string.

(** [str(v)]. *)
Definition py_str (v : json) : string :=
  match v with
  | JNull => "None"
  | JBool true => "True"
  | JBool false => "False"
  | JInt n => NilZero.string_of_int (Z.to_int n)
  | JStr s => s
  | JFloat _ | JList _ | JObj _ => repr v
  end.

(** [parse_task_input], from what the Gemini call came to. *)
Definition parse_task_input (reply : gemini_reply) : result (option TaskDraft) :=
  match call_gemini reply with
  | None => Return None
  | Some res =>
      if truthy res then
        match py_in "title" res with
        | Raise e => Raise e
        | Return false => Return None
        | Return true =>
            match res with
            | JObj members =>
                Return (Some
                  {| title :=
                       slice_to 255
                         (py_str (match members !! "title" with
                                  | Some v => v
                                  | None => JStr ""
                                  end));
                     description := dict_get members "description";
                     priority :=
                       match dict_get members "priority" with
                       | JStr p =>
                           if database.str_in p ["low"; "medium"; "high"; "urgent"]
                           then p else "medium"
                       | _ => "medium"
                       end;
                     due_date := dict_get members "due_date" |})
            | _ => Raise AttributeError
            end
        end
      else Return None
  end.

(** The comprehension of [breakdown_task]. *)
Definition clean_sub_tasks (sub_tasks : list json) : list string :=
  List.map (fun task => slice_to 255 (py_str task))
    (List.filter
       (fun task => truthy task && negb (String.eqb (strip (py_str task)) ""))
       sub_tasks).

(** [breakdown_task], from what the Gemini call came to. *)
Definition breakdown_task (reply : gemini_reply) : result (option (list string)) :=
  match call_gemini reply with
  | None => Return None
  | Some res =>
      if truthy res then
        match py_in "sub_tasks" res with
        | Raise e => Raise e
        | Return false => Return None
        | Return true =>
            match res with
            | JObj members =>
                match members !! "sub_tasks" with
                | Some (JList (x :: rest)) =>
                    Return (Some (clean_sub_tasks (x :: rest)))
                | _ => Return None
                end
            | _ => Raise TypeError
            end
        end
      else Return None
  end.

End Adapters.

End gemini_utils.

(** ** app.py: the roots of [render_task_hierarchy] *)

Module app.
Import database.

(** [tasks_by_id = {t.task_id: t for t in all_tasks}]: a later task
    replaces an earlier one under the same key. *)
Definition tasks_by_id (all_tasks : list Task) : gmap string Task :=
  fold_left (fun m t => <[task_id t := t]> m) all_tasks ∅.

(** Truth value of [t.parent_task_id]: [None] and the empty string are
    false. *)
Definition parent_ref (t : Task) : option string :=
  match parent_task_id t with
  | Some p => if String.eqb p "" then None else Some p
  | None => None
  end.

(** The loop that fills [children_map]. *)
Definition children_map (all_tasks : list Task) : gmap string (list Task) :=
  fold_left
    (fun (m : gmap string (list Task)) task =>
       match parent_ref task with
       | Some p => <[p := default [] (m !! p) ++ [task]]> m
       | None => m
       end)
    all_tasks ∅.

(** [root_tasks = [t for t in all_tasks
                   if not t.parent_task_id or t.parent_task_id not in tasks_by_id]]. *)
Definition root_tasks (all_tasks : list Task) : list Task :=
  List.filter
    (fun t =>
       match parent_ref t with
       | None => true
       | Some p => negb (bool_decide (is_Some (tasks_by_id all_tasks !! p)))
       end)
    all_tasks.

(** *** The task list and its filter *)

(** [status_map.get(filter_status)] of [render_task_list]: the label All,
    whose entry is [None], and a label without entry both give [None]. *)
Definition status_map_get (label : string) : option string :=
  if String.eqb label "To Do" then Some "todo"
  else if String.eqb label "In Progress" then Some "inprogress"
  else if String.eqb label "Done" then Some "done"
  else if String.eqb label "Blocked" then Some "blocked"
  else None.

(** The tasks that [render_task_list] hands to [render_task_hierarchy]. *)
Definition listed_tasks (db : Session) (filter_status : string) : list Task :=
  match status_map_get filter_status with
  | Some status_filter =>
      if String.eqb status_filter "" then get_all_tasks db
      else get_tasks_by_status db status_filter
  | None => get_all_tasks db
  end.

(** *** The handlers of two buttons *)

(** [st.session_state], with the keys [init_session_state] sets. *)
Record SessionState : Type := mkState {
  current_view : string;
  editing_task_id : option string;
  show_add_form : bool;
  show_ai_input : bool;
  ai_parsed_task : option gemini_utils.TaskDraft;
  breakdown_task_id : option string;
  breakdown_subtasks : option (list string)
}.

(** [len(v)] of a list or of [None]. *)
Definition py_len (v : option (list string)) : gemini_utils.result nat :=
  match v with
  | Some l => gemini_utils.Return (List.length l)
  | None => gemini_utils.Raise gemini_utils.TypeError
  end.

(** The loop of Create All in [render_breakdown_form]; [fresh i] is the id
    and the two clock readings of the [i]-th [create_task]. *)
Fixpoint create_sub_tasks (db : Session) (task : Task)
    (fresh : nat -> string * (Z * Z)) (i : nat) (titles : list string) : Session :=
  match titles with
  | [] => db
  | subtask_title :: rest =>
      let '(new_id, (now_created, now_updated)) := fresh i in
      create_sub_tasks
        (fst (create_task db new_id now_created now_updated subtask_title None
                "todo" (priority task) None (Some (task_id task))))
        task fresh (S i) rest
  end.

(** The body of [if st.button("Create All", ...)]: the store and the session
    state it leaves, and how it ends ([Return] when it reaches
    [st.rerun()]). *)
Definition create_all_clicked (db : Session) (state : SessionState)
    (task : Task) (fresh : nat -> string * (Z * Z))
    : Session * SessionState * gemini_utils.result unit :=
  match breakdown_subtasks state with
  | None => (db, state, gemini_utils.Raise gemini_utils.TypeError)
  | Some titles =>
      let db' := create_sub_tasks db task fresh 0 titles in
      let state' :=
        {| current_view := current_view state;
           editing_task_id := editing_task_id state;
           show_add_form := show_add_form state;
           show_ai_input := show_ai_input state;
           ai_parsed_task := ai_parsed_task state;
           breakdown_task_id := None;
           breakdown_subtasks := None |} in
      match py_len (breakdown_subtasks state') with
      | gemini_utils.Raise e => (db', state', gemini_utils.Raise e)
      | gemini_utils.Return _ => (db', state', gemini_utils.Return tt)
      end
  end.

(** Midnight UTC of a day, the day counted from 1970-01-01:
    [datetime.combine(d, datetime.min.time()).replace(tzinfo=timezone.utc)]. *)
Definition midnight_utc (day : Z) : Z := day * 86400000000.

(** The body of [if st.form_submit_button("Save", ...)] in
    [render_edit_task_form], from the values of the form's widgets; the
    boolean tells whether the task was saved (otherwise the form shows
    Title is required). *)
Definition save_clicked (db : Session) (state : SessionState) (task : Task)
    (title description status priority : string)
    (due_date : option Z) (clear_due : bool) (now : Z)
    : Session * SessionState * bool :=
  if negb (String.eqb (gemini_utils.strip title) "") then
    let due_dt :=
      match due_date with
      | Some day => if negb clear_due then Some (midnight_utc day) else None
      | None => None
      end in
    (fst (update_task db (task_id task)
            (Some (gemini_utils.strip title))
            (if negb (String.eqb description "")
             then Some (gemini_utils.strip description) else None)
            (Some status) (Some priority) due_dt None clear_due false now),
     {| current_view := current_view state;
        editing_task_id := None;
        show_add_form := show_add_form state;
        show_ai_input := show_ai_input state;
        ai_parsed_task := ai_parsed_task state;
        breakdown_task_id := breakdown_task_id state;
        breakdown_subtasks := breakdown_subtasks state |},
     true)
  else (db, state, false).

End app.

(** * Properties *)

Import gemini_utils.
Import database.

(** ** Notions the statements are written in, and the data of the examples *)

(** The candidate set of the next-task query. *)
Definition candidate (t : Task) : Prop :=
  status t = "todo" \/ status t = "inprogress".



(** The comparison of [get_next_priority_task] and the order [precedes]. *)
Definition next_cmp : Task -> Task -> comparison :=
  order_cmp [desc priority_case; asc_nullslast due_date; asc created_at].

(** What the schema guarantees of the table: primary keys are distinct and
    none is above the key counter, and [task_id] is UNIQUE. *)
Definition wf_session (db : Session) : Prop :=
  List.NoDup (List.map id (tasks db))
  /\ List.NoDup (List.map task_id (tasks db))
  /\ (forall t, In t (tasks db) -> id t <= sqlite_sequence db).

(** A row whose status and priority are among the enumerated values. *)
Definition valid_enums (t : Task) : Prop :=
  In (status t) VALID_STATUSES /\ In (priority t) VALID_PRIORITIES.

(** [number_of P rows n]: exactly [n] of the rows satisfy [P]. *)
Inductive number_of (P : Task -> Prop) : list Task -> Z -> Prop :=
| number_of_nil : number_of P [] 0
| number_of_yes t rows n :
    P t -> number_of P rows n -> number_of P (t :: rows) (n + 1)
| number_of_no t rows n :
    ~ P t -> number_of P rows n -> number_of P (t :: rows) n.

(** A task that is overdue at [now]: still open and due strictly before. *)
Definition overdue_at (now : Z) (t : Task) : Prop :=
  candidate t /\ exists d, due_date t = Some d /\ d < now.

(** A blank string: every character of it is white space. *)
Definition blank (s : string) : Prop :=
  forall c, In c (list_ascii_of_string s) -> isspace c = true.

Fixpoint blankb (s : string) : bool :=
  match s with
  | EmptyString => true
  | String c rest => isspace c && blankb rest
  end.

(** A rendering for replies in which [str] meets no float, list or dict. *)
Definition unused_repr : json -> string := fun _ => "".

(** The sub-task reply of the specification's example. *)
Definition milk_members : gmap string json :=
  {[ "sub_tasks" := JList [JStr ""; JStr " Buy milk "; JStr "Call vet"] ]}.

Definition milk_reply : gemini_reply := response_json (JObj milk_members).

(** A reply whose sub-tasks are all blank. *)
Definition blank_members : gmap string json :=
  {[ "sub_tasks" := JList [JStr ""; JStr "   "] ]}.

(** Midnight UTC of 2023-01-01, 2024-01-01, 2024-01-15 and 2024-02-01, in
    microseconds since the epoch. *)
Definition d2023_01_01 : Z := 1672531200000000.
Definition d2024_01_01 : Z := 1704067200000000.
Definition d2024_01_15 : Z := 1705276800000000.
Definition d2024_02_01 : Z := 1706745600000000.

Definition row (pk : Z) (tid st pr : string) (due : option Z)
    (parent : option string) (created : Z) : Task :=
  {| id := pk; task_id := tid; database.title := tid;
     database.description := None; status := st; database.priority := pr;
     database.due_date := due; parent_task_id := parent;
     created_at := created; updated_at := created |}.

Definition empty_session : Session := {| tasks := []; sqlite_sequence := 0 |}.

Definition urgent_jan : Task := row 3 "a" "todo" "urgent" (Some d2024_01_01) None 30.
Definition urgent_feb : Task := row 2 "b" "todo" "urgent" (Some d2024_02_01) None 20.
Definition high_2023 : Task := row 1 "c" "inprogress" "high" (Some d2023_01_01) None 10.

(** The statistics example of the specification: two todo (one overdue), one
    inprogress, one done, one blocked. *)
Definition five_tasks : Session :=
  {| tasks := [row 1 "t1" "todo" "medium" (Some d2024_01_01) None 1;
               row 2 "t2" "todo" "low" (Some d2024_02_01) None 2;
               row 3 "t3" "inprogress" "high" None None 3;
               row 4 "t4" "done" "urgent" (Some d2023_01_01) None 4;
               row 5 "t5" "blocked" "medium" (Some d2023_01_01) None 5];
     sqlite_sequence := 5 |}.

(** The draft example of the specification. *)
Definition call_mom : gmap string json :=
  {[ "title" := JStr "Call mom"; "description" := JNull;
     "priority" := JStr "urgent"; "due_date" := JStr "2024-01-02" ]}.

Definition one_task : Session :=
  {| tasks := [row 1 "t1" "todo" "medium" None None 10]; sqlite_sequence := 1 |}.

Definition orphan : Task := row 2 "child" "done" "low" None (Some "gone") 2.

(** Every parent reference of the table is the id of a stored task. *)
Definition parents_resolve (db : Session) : Prop :=
  forall c p, In c (tasks db) -> parent_task_id c = Some p ->
    exists u, In u (tasks db) /\ task_id u = p.

(** A parent and its child. *)
Definition family : Session :=
  {| tasks := [row 1 "p" "todo" "high" None None 1;
               row 2 "c" "todo" "high" None (Some "p") 2];
     sqlite_sequence := 2 |}.

(** A task whose parent reference, as the hierarchy view reads it, is [p]. *)
Definition child_of (p : string) (t : Task) : bool :=
  match app.parent_ref t with
  | Some q => String.eqb q p
  | None => false
  end.

(** The session state after [init_session_state], with sub-tasks suggested
    for the parent of [family]. *)
Definition suggested : app.SessionState :=
  {| app.current_view := "tasks"; app.editing_task_id := None;
     app.show_add_form := false; app.show_ai_input := false;
     app.ai_parsed_task := None; app.breakdown_task_id := Some "p";
     app.breakdown_subtasks := Some ["Buy milk"; "Call vet"] |}.

(** Ids and clock readings for the examples. *)
Definition fresh_ids (i : nat) : string * (Z * Z) :=
  (String (ascii_of_nat (65 + i)) "", (100 + Z.of_nat i, 100 + Z.of_nat i)).

(** ** Sorting: the first row of an ORDER BY is a least one *)

Section FirstOfSorted.

Variable cmp : Task -> Task -> comparison.
Hypothesis cmp_refl : forall a, cmp a a <> Gt.
Hypothesis cmp_total : forall a b, cmp a b = Gt -> cmp b a <> Gt.
Hypothesis cmp_trans : forall a b c, cmp a b <> Gt -> cmp b c <> Gt -> cmp a c <> Gt.

Lemma first_insert_row (x : Task) (rows : list Task) :
  first (insert_row cmp x rows) = Some x
  \/ (exists y, first rows = Some y /\ cmp x y = Gt
                /\ first (insert_row cmp x rows) = Some y).
Proof.
  destruct rows as [|y rest]; simpl.
  - now left.
  - destruct (cmp x y) eqn:E; simpl; auto.
    right. exists y. auto.
Qed.


End FirstOfSorted.





Lemma status_in_candidate (t : Task) :
  str_in (status t) ["todo"; "inprogress"] = true <-> candidate t.
Proof.
  unfold str_in, candidate. cbn [existsb].
  rewrite !orb_true_iff, !String.eqb_eq. intuition discriminate.
Qed.


(** ** The store: lookups, children, deletion *)

Lemma filter_all_true {A : Type} (f : A -> bool) (l : list A) :
  (forall x, In x l -> f x = true) -> List.filter f l = l.
Proof.
  induction l as [|a l IH]; simpl; intros H; [reflexivity|].
  rewrite (H a (or_introl eq_refl)). f_equal. apply IH. intros x Hx.
  apply H. now right.
Qed.

Lemma get_task_by_id_Some (db : Session) (tid : string) (t : Task) :
  get_task_by_id db tid = Some t -> In t (tasks db) /\ task_id t = tid.
Proof.
  unfold get_task_by_id, query.
  destruct (List.filter _ (tasks db)) as [|r rest] eqn:E; simpl; [discriminate|].
  intros [= ->].
  assert (In t (List.filter (fun t => String.eqb (task_id t) tid) (tasks db))) as H
    by (rewrite E; now left).
  apply filter_In in H. destruct H as [H1 H2].
  split; [exact H1 | now apply String.eqb_eq].
Qed.

Lemma get_task_by_id_None (db : Session) (tid : string) :
  get_task_by_id db tid = None <-> (forall t, In t (tasks db) -> task_id t <> tid).
Proof.
  unfold get_task_by_id, query. split.
  - intros H t Ht Heq.
    assert (In t (List.filter (fun t => String.eqb (task_id t) tid) (tasks db))) as Hf
      by (apply filter_In; split; [exact Ht | now apply String.eqb_eq]).
    destruct (List.filter _ (tasks db)); [destruct Hf | discriminate].
  - intros H.
    destruct (List.filter _ (tasks db)) as [|r rest] eqn:E; [reflexivity|].
    assert (In r (List.filter (fun t => String.eqb (task_id t) tid) (tasks db))) as Hf
      by (rewrite E; now left).
    apply filter_In in Hf. destruct Hf as [Hr Heq].
    apply String.eqb_eq in Heq. now destruct (H r Hr).
Qed.

Lemma first_filter_unique (rows : list Task) (t : Task) :
  List.NoDup (List.map task_id rows) -> In t rows ->
  first (List.filter (fun r => String.eqb (task_id r) (task_id t)) rows) = Some t.
Proof.
  induction rows as [|r rows IH]; simpl; intros Hnd Hin; [destruct Hin|].
  inversion Hnd as [|? ? Hnotin Hnd']; subst.
  destruct Hin as [-> | Hin].
  - now rewrite String.eqb_refl.
  - destruct (String.eqb (task_id r) (task_id t)) eqn:E.
    + apply String.eqb_eq in E. exfalso. apply Hnotin. rewrite E.
      now apply in_map.
    + now apply IH.
Qed.

Lemma get_task_by_id_stored (db : Session) (t : Task) :
  List.NoDup (List.map task_id (tasks db)) -> In t (tasks db) ->
  get_task_by_id db (task_id t) = Some t.
Proof. intros Hnd Hin. now apply first_filter_unique. Qed.

Lemma parent_is_spec (tid : string) (c : Task) :
  parent_is tid c = true <-> parent_task_id c = Some tid.
Proof.
  unfold parent_is. destruct (parent_task_id c) as [p|].
  - rewrite String.eqb_eq. split; congruence.
  - split; discriminate.
Qed.

Lemma has_subtasks_spec (db : Session) (tid : string) :
  has_subtasks db tid = true
  <-> exists c, In c (tasks db) /\ parent_task_id c = Some tid.
Proof.
  unfold has_subtasks, count, query. rewrite Z.ltb_lt. split.
  - intros H.
    destruct (List.filter (parent_is tid) (tasks db)) as [|c rest] eqn:E;
      [simpl in H; lia|].
    assert (In c (List.filter (parent_is tid) (tasks db))) as Hc
      by (rewrite E; now left).
    apply filter_In in Hc. destruct Hc as [Hc Hp].
    exists c. split; [exact Hc | now apply parent_is_spec].
  - intros (c & Hc & Hp).
    assert (In c (List.filter (parent_is tid) (tasks db))) as Hf
      by (apply filter_In; split; [exact Hc | now apply parent_is_spec]).
    destruct (List.filter (parent_is tid) (tasks db)); [destruct Hf|].
    simpl List.length. lia.
Qed.

Lemma has_subtasks_false (db : Session) (tid : string) :
  has_subtasks db tid = false
  <-> (forall c, In c (tasks db) -> parent_task_id c <> Some tid).
Proof.
  rewrite <- not_true_iff_false, has_subtasks_spec. split.
  - intros H c Hc Hp. apply H. now exists c.
  - intros H (c & Hc & Hp). now apply (H c).
Qed.

Lemma filter_out_row (before after : list Task) (t : Task) :
  List.NoDup (List.map id (before ++ t :: after)) ->
  List.filter (fun r => negb (Z.eqb (id r) (id t))) (before ++ t :: after)
  = before ++ after.
Proof.
  intros Hnd. rewrite List.map_app in Hnd. simpl in Hnd.
  apply List.NoDup_remove_2 in Hnd.
  rewrite List.filter_app. simpl. rewrite Z.eqb_refl. simpl.
  rewrite !filter_all_true; [reflexivity | |];
    intros r Hr; apply negb_true_iff, Z.eqb_neq; intros Heq; apply Hnd;
    rewrite <- Heq; apply in_or_app; [right | left]; now apply in_map.
Qed.

Lemma delete_task_unknown (db : Session) (tid : string) :
  (forall t, In t (tasks db) -> task_id t <> tid) ->
  delete_task db tid = (db, false).
Proof.
  intros H. unfold delete_task.
  now rewrite (proj2 (get_task_by_id_None db tid) H).
Qed.

Lemma delete_task_parent (db : Session) (tid : string) :
  (exists c, In c (tasks db) /\ parent_task_id c = Some tid) ->
  delete_task db tid = (db, false).
Proof.
  intros H. unfold delete_task.
  destruct (get_task_by_id db tid); [|reflexivity].
  now rewrite (proj2 (has_subtasks_spec db tid) H).
Qed.

Lemma delete_task_leaf (db : Session) (before after : list Task) (t : Task) :
  wf_session db ->
  tasks db = before ++ t :: after ->
  (forall c, In c (tasks db) -> parent_task_id c <> Some (task_id t)) ->
  delete_task db (task_id t)
  = ({| tasks := before ++ after; sqlite_sequence := sqlite_sequence db |}, true).
Proof.
  intros (Hid & Htid & _) Hsplit Hleaf. unfold delete_task.
  rewrite get_task_by_id_stored;
    [| exact Htid | rewrite Hsplit; apply in_or_app; right; now left].
  rewrite (proj2 (has_subtasks_false db (task_id t)) Hleaf).
  rewrite Hsplit. rewrite filter_out_row; [reflexivity | now rewrite <- Hsplit].
Qed.

Lemma create_task_wf (db : Session) (new_id : string) (now now' : Z)
    (ti : string) (de : option string) (st pr : string)
    (du : option Z) (pa : option string) :
  wf_session db -> ~ In new_id (List.map task_id (tasks db)) ->
  wf_session (fst (create_task db new_id now now' ti de st pr du pa)).
Proof.
  intros (Hid & Htid & Hseq) Hfresh. unfold wf_session, create_task. simpl.
  rewrite !List.map_app. simpl. repeat split.
  - apply List.NoDup_app_remove_l with (l := []). simpl.
    apply List.NoDup_rev in Hid. rewrite <- (rev_involutive (_ ++ _)).
    apply List.NoDup_rev. rewrite rev_app_distr. simpl. constructor.
    + rewrite <- in_rev. intros Hin. apply in_map_iff in Hin.
      destruct Hin as (t & Ht & Hin). specialize (Hseq t Hin). lia.
    + exact Hid.
  - rewrite <- (rev_involutive (_ ++ _)).
    apply List.NoDup_rev. rewrite rev_app_distr. simpl. constructor.
    + now rewrite <- in_rev.
    + now apply List.NoDup_rev.
  - intros t Ht. apply in_app_or in Ht. destruct Ht as [Ht | [<- | []]].
    + specialize (Hseq t Ht). lia.
    + simpl. lia.
Qed.

Lemma NoDup_map_filter {A B : Type} (f : A -> B) (g : A -> bool) (l : list A) :
  List.NoDup (List.map f l) -> List.NoDup (List.map f (List.filter g l)).
Proof.
  induction l as [|a l IH]; simpl; intros Hnd; [constructor|].
  inversion Hnd as [|? ? Hnotin Hnd']; subst.
  destruct (g a); simpl; [constructor|]; auto.
  intros Hin. apply Hnotin. apply in_map_iff in Hin.
  destruct Hin as (x & Hx & Hin). apply filter_In in Hin.
  rewrite <- Hx. apply in_map. tauto.
Qed.

Lemma delete_task_wf (db : Session) (tid : string) :
  wf_session db -> wf_session (fst (delete_task db tid)).
Proof.
  intros Hwf. unfold delete_task.
  destruct (get_task_by_id db tid) as [t|]; [|exact Hwf].
  destruct (has_subtasks db tid); [exact Hwf|].
  destruct Hwf as (Hid & Htid & Hseq). unfold wf_session. simpl.
  repeat split; try now apply NoDup_map_filter.
  intros r Hr. apply filter_In in Hr. apply Hseq. tauto.
Qed.

(** C4. On a table as the schema keeps it, [delete_task] returns false and
    leaves the store alone when no stored task has the id, and when some
    stored task has the id as its parent reference; otherwise it returns true
    and the table loses exactly the record of that id. So, with a parent P
    and a child C of P freshly created, deleting P is refused, while deleting
    C and then P succeeds both times. *)
Theorem delete_task_refuses_or_removes (db : Session) (tid : string) :
  wf_session db ->
  ((forall t, In t (tasks db) -> task_id t <> tid) ->
   delete_task db tid = (db, false))
  /\ ((exists c, In c (tasks db) /\ parent_task_id c = Some tid) ->
      delete_task db tid = (db, false))
  /\ (forall before t after,
        tasks db = before ++ t :: after -> task_id t = tid ->
        (forall c, In c (tasks db) -> parent_task_id c <> Some tid) ->
        delete_task db tid
        = ({| tasks := before ++ after; sqlite_sequence := sqlite_sequence db |},
           true))
  /\ (forall cid nowP nowP' nowC nowC' tiP deP stP prP duP paP tiC deC stC prC duC,
        tid <> cid ->
        (forall t, In t (tasks db) ->
           task_id t <> tid /\ task_id t <> cid
           /\ parent_task_id t <> Some tid /\ parent_task_id t <> Some cid) ->
        paP <> Some tid -> paP <> Some cid ->
        let withP := create_task db tid nowP nowP' tiP deP stP prP duP paP in
        let withC :=
          create_task (fst withP) cid nowC nowC' tiC deC stC prC duC
            (Some (task_id (snd withP))) in
        snd (delete_task (fst withC) (task_id (snd withP))) = false
        /\ snd (delete_task (fst withC) (task_id (snd withC))) = true
        /\ snd (delete_task (fst (delete_task (fst withC) (task_id (snd withC))))
                  (task_id (snd withP))) = true).
Proof.
  intros Hwf. split; [apply delete_task_unknown|].
  split; [apply delete_task_parent|].
  split.
  { intros before t after Hsplit <- Hleaf. now apply delete_task_leaf. }
  intros cid nowP nowP' nowC nowC' tiP deP stP prP duP paP tiC deC stC prC duC
    Hne Hfresh HpaP1 HpaP2 withP withC.
  assert (wf_session (fst withP)) as HwfP.
  { apply create_task_wf; [exact Hwf|]. intros Hin. apply in_map_iff in Hin.
    destruct Hin as (t & Ht & Hin). now destruct (Hfresh t Hin). }
  assert (wf_session (fst withC)) as HwfC.
  { apply create_task_wf; [exact HwfP|]. intros Hin. apply in_map_iff in Hin.
    destruct Hin as (t & Ht & Hin). simpl in Hin. apply in_app_or in Hin.
    destruct Hin as [Hin | [<- | []]].
    - destruct (Hfresh t Hin) as (_ & H & _). now apply H.
    - simpl in Ht. congruence. }
  pose (P := snd withP). pose (C := snd withC).
  assert (tasks (fst withC) = (tasks db ++ [P]) ++ C :: []) as Hrows
    by reflexivity.
  assert (delete_task (fst withC) (task_id C)
          = ({| tasks := (tasks db ++ [P]) ++ [];
                sqlite_sequence := sqlite_sequence (fst withC) |}, true)) as HdelC.
  { apply delete_task_leaf; [exact HwfC | exact Hrows |].
    intros c Hc. rewrite Hrows in Hc. apply in_app_or in Hc.
    destruct Hc as [Hc | [<- | []]].
    - apply in_app_or in Hc. destruct Hc as [Hc | [<- | []]].
      + now destruct (Hfresh c Hc) as (_ & _ & _ & H).
      + exact HpaP2.
    - simpl. congruence. }
  split; [|split].
  - rewrite delete_task_parent; [reflexivity|]. exists C. split.
    + rewrite Hrows. apply in_or_app. right. now left.
    + reflexivity.
  - fold C. now rewrite HdelC.
  - fold C. pose proof (delete_task_wf (fst withC) (task_id C) HwfC) as Hwf3.
    rewrite HdelC in *. simpl fst in *.
    change (task_id (snd withP)) with (task_id P).
    rewrite (delete_task_leaf _ (tasks db) [] P Hwf3); [reflexivity | |].
    + simpl. now rewrite app_nil_r.
    + simpl. rewrite app_nil_r. intros c Hc. apply in_app_or in Hc.
      destruct Hc as [Hc | [<- | []]].
      * now destruct (Hfresh c Hc) as (_ & _ & H & _).
      * exact HpaP1.
Qed.

(** ** Updates *)

Lemma store_row_other (t' : Task) (rows : list Task) :
  (forall r, In r rows -> id r <> id t') -> store_row t' rows = rows.
Proof.
  induction rows as [|r rows IH]; simpl; intros H; [reflexivity|].
  rewrite (proj2 (Z.eqb_neq _ _) (H r (or_introl eq_refl))).
  f_equal. apply IH. intros x Hx. apply H. now right.
Qed.

Lemma store_row_app (t' : Task) (rows1 rows2 : list Task) :
  store_row t' (rows1 ++ rows2) = store_row t' rows1 ++ store_row t' rows2.
Proof. apply List.map_app. Qed.

Lemma store_row_at (before after : list Task) (t t' : Task) :
  List.NoDup (List.map id (before ++ t :: after)) -> id t' = id t ->
  store_row t' (before ++ t :: after) = before ++ t' :: after.
Proof.
  intros Hnd Hid. rewrite List.map_app in Hnd. simpl in Hnd.
  apply List.NoDup_remove_2 in Hnd. rewrite <- Hid in Hnd.
  rewrite store_row_app.
  change (store_row t' (t :: after))
    with ((if Z.eqb (id t) (id t') then t' else t) :: store_row t' after).
  rewrite <- Hid, Z.eqb_refl.
  rewrite !store_row_other; [reflexivity | |];
    intros r Hr Heq; apply Hnd; rewrite <- Heq; apply in_or_app;
    [right | left]; now apply in_map.
Qed.

(** C5, as the code has it. On a table as the schema keeps it, updating a
    stored task with no field supplied and no clear-flag returns the task
    with every field but [updated_at] as it was, writes it back in the place
    of the old row and leaves the other rows alone. [updated_at] becomes the
    reading of the clock, whatever it was before: it is strictly later than
    before exactly when that reading is. *)
Theorem update_without_fields_sets_clock (db : Session) (T : Task) (now : Z) :
  wf_session db -> In T (tasks db) ->
  exists T',
    snd (update_task db (task_id T) None None None None None None false false now)
    = Some T'
    /\ id T' = id T /\ task_id T' = task_id T /\ title T' = title T
    /\ description T' = description T /\ status T' = status T
    /\ priority T' = priority T /\ due_date T' = due_date T
    /\ parent_task_id T' = parent_task_id T /\ created_at T' = created_at T
    /\ updated_at T' = now
    /\ (updated_at T < updated_at T' <-> updated_at T < now)
    /\ forall before after,
         tasks db = before ++ T :: after ->
         tasks (fst (update_task db (task_id T) None None None None None None
                       false false now))
         = before ++ T' :: after.
Proof.
  intros (Hid & Htid & _) Hin. unfold update_task.
  rewrite (get_task_by_id_stored db T Htid Hin). cbn [fst snd tasks].
  eexists. split; [reflexivity|].
  unfold apply_update.
  cbn [id task_id title description status priority due_date parent_task_id
       created_at updated_at].
  repeat (split; [reflexivity|]).
  intros before after Hsplit. rewrite Hsplit.
  apply store_row_at; [now rewrite <- Hsplit | reflexivity].
Qed.

(** ** Enumerated fields *)

Lemma str_in_In (x : string) (xs : list string) : str_in x xs = true <-> In x xs.
Proof.
  unfold str_in. rewrite existsb_exists. split.
  - intros (y & Hy & Heq). apply String.eqb_eq in Heq. now subst.
  - intros H. exists x. split; [exact H | apply String.eqb_refl].
Qed.

Lemma str_in_not_In (x : string) (xs : list string) :
  str_in x xs = false <-> ~ In x xs.
Proof. rewrite <- not_true_iff_false, str_in_In. reflexivity. Qed.

Lemma apply_update_valid (task : Task) (ti de st pr : option string)
    (du : option Z) (pa : option string) (cd cp : bool) (now : Z) :
  valid_enums task ->
  valid_enums (apply_update task ti de st pr du pa cd cp now).
Proof.
  intros [Hs Hp]. unfold valid_enums, apply_update. cbn [status priority]. split.
  - destruct st as [v|]; [|exact Hs].
    destruct (str_in v VALID_STATUSES) eqn:E; [now apply str_in_In | exact Hs].
  - destruct pr as [v|]; [|exact Hp].
    destruct (str_in v VALID_PRIORITIES) eqn:E; [now apply str_in_In | exact Hp].
Qed.

(** C7. When every stored task has a status and a priority among the
    enumerated values, so has every stored task after any [create_task] and
    after any [update_task]. [create_task] keeps a valid status or priority
    and stores todo or medium for an invalid one; [update_task] returns
    nothing for an unknown id and otherwise returns the task, an invalid
    status or priority leaving the stored one as it was. *)
Theorem enums_stay_valid (db : Session) :
  (forall t, In t (tasks db) -> valid_enums t) ->
  (forall new_id now now' ti de st pr du pa,
     let r := create_task db new_id now now' ti de st pr du pa in
     (forall t, In t (tasks (fst r)) -> valid_enums t)
     /\ In (snd r) (tasks (fst r))
     /\ (In st VALID_STATUSES -> status (snd r) = st)
     /\ (~ In st VALID_STATUSES -> status (snd r) = "todo")
     /\ (In pr VALID_PRIORITIES -> priority (snd r) = pr)
     /\ (~ In pr VALID_PRIORITIES -> priority (snd r) = "medium"))
  /\ (forall tid ti de st pr du pa cd cp now,
        let r := update_task db tid ti de st pr du pa cd cp now in
        (forall t, In t (tasks (fst r)) -> valid_enums t)
        /\ (get_task_by_id db tid = None -> r = (db, None))
        /\ (forall old, get_task_by_id db tid = Some old ->
              exists new, snd r = Some new /\ valid_enums new
                /\ (forall v, st = Some v -> In v VALID_STATUSES -> status new = v)
                /\ (forall v, st = Some v -> ~ In v VALID_STATUSES ->
                      status new = status old)
                /\ (forall v, pr = Some v -> In v VALID_PRIORITIES ->
                      priority new = v)
                /\ (forall v, pr = Some v -> ~ In v VALID_PRIORITIES ->
                      priority new = priority old))).
Proof.
  intros Hvalid. split.
  - intros new_id now now' ti de st pr du pa r. subst r. unfold create_task.
    cbn [fst snd tasks status priority].
    assert (valid_enums
      {| id := sqlite_sequence db + 1; task_id := new_id; title := ti;
         description := de;
         status := if str_in st VALID_STATUSES then st else "todo";
         priority := if str_in pr VALID_PRIORITIES then pr else "medium";
         due_date := du; parent_task_id := pa;
         created_at := now; updated_at := now' |}) as Hnew.
    { unfold valid_enums. cbn [status priority]. split.
      - destruct (str_in st VALID_STATUSES) eqn:E;
          [now apply str_in_In | simpl; tauto].
      - destruct (str_in pr VALID_PRIORITIES) eqn:E;
          [now apply str_in_In | simpl; tauto]. }
    split; [|split; [apply in_or_app; right; now left|]].
    + intros t Ht. apply in_app_or in Ht.
      destruct Ht as [Ht | [<- | []]]; [now apply Hvalid | exact Hnew].
    + repeat split; intros H.
      * now rewrite (proj2 (str_in_In _ _) H).
      * now rewrite (proj2 (str_in_not_In _ _) H).
      * now rewrite (proj2 (str_in_In _ _) H).
      * now rewrite (proj2 (str_in_not_In _ _) H).
  - intros tid ti de st pr du pa cd cp now r. subst r. unfold update_task.
    destruct (get_task_by_id db tid) as [old|] eqn:Eget.
    + apply get_task_by_id_Some in Eget. destruct Eget as [Hold _].
      pose proof (apply_update_valid old ti de st pr du pa cd cp now
                    (Hvalid old Hold)) as Hnew.
      cbn [fst snd tasks]. split; [|split; [discriminate|]].
      * intros t Ht. unfold store_row in Ht. apply in_map_iff in Ht.
        destruct Ht as (r & Hr & Hin).
        destruct (Z.eqb (id r) _) in Hr; subst t; [exact Hnew | now apply Hvalid].
      * intros old' [= <-]. eexists. split; [reflexivity|].
        split; [exact Hnew|]. unfold apply_update. cbn [status priority].
        repeat split; intros v -> H.
        -- now rewrite (proj2 (str_in_In _ _) H).
        -- now rewrite (proj2 (str_in_not_In _ _) H).
        -- now rewrite (proj2 (str_in_In _ _) H).
        -- now rewrite (proj2 (str_in_not_In _ _) H).
    + cbn [fst snd tasks]. split; [exact Hvalid|]. split; [reflexivity | discriminate].
Qed.

(** ** Statistics *)

Lemma count_filter_number_of (p : Task -> bool) (P : Task -> Prop)
    (rows : list Task) :
  (forall t, p t = true <-> P t) ->
  number_of P rows (count (List.filter p rows)).
Proof.
  intros Hp. induction rows as [|t rows IH]; simpl; [constructor|].
  destruct (p t) eqn:E.
  - replace (count (t :: List.filter p rows)) with (count (List.filter p rows) + 1)
      by (unfold count; simpl List.length; lia).
    constructor; [now apply Hp | exact IH].
  - constructor; [|exact IH]. rewrite <- Hp. congruence.
Qed.

Lemma overdue_test_spec (now : Z) (t : Task) :
  due_before now t && str_in (status t) ["todo"; "inprogress"] = true
  <-> overdue_at now t.
Proof.
  unfold overdue_at, due_before.
  rewrite andb_true_iff, status_in_candidate.
  destruct (due_date t) as [d|].
  - rewrite Z.ltb_lt. split.
    + intros [H1 H2]. split; [exact H2|]. now exists d.
    + intros [H1 (d' & [= <-] & H2)]. tauto.
  - split; [intros [H _]; discriminate | intros [_ (d & H & _)]; discriminate].
Qed.

Lemma overdue_skips_closed (now : Z) (before after : list Task) (t : Task) :
  status t = "done" \/ status t = "blocked" ->
  List.filter (fun r => due_before now r && str_in (status r) ["todo"; "inprogress"])
    (before ++ t :: after)
  = List.filter (fun r => due_before now r && str_in (status r) ["todo"; "inprogress"])
      (before ++ after).
Proof.
  intros Hclosed. rewrite !List.filter_app. f_equal.
  cbn [List.filter].
  replace (str_in (status t) ["todo"; "inprogress"]) with false;
    [now rewrite andb_false_r|].
  symmetry. apply not_true_iff_false. rewrite status_in_candidate.
  unfold candidate. destruct Hclosed as [-> | ->]; intros [H | H]; discriminate.
Qed.

(** C6. [get_task_stats] gives as total the number of stored tasks, as todo,
    inprogress, done and blocked the number of tasks with that status, and
    as overdue the number of tasks with status todo or inprogress whose due
    date is strictly before the current instant; a task with status done or
    blocked adds nothing to overdue, whatever its due date. *)
Theorem task_stats_count (db : Session) (now : Z) :
  let s := get_task_stats db now in
  number_of (fun _ => True) (tasks db) (total s)
  /\ number_of (fun t => status t = "todo") (tasks db) (todo s)
  /\ number_of (fun t => status t = "inprogress") (tasks db) (inprogress s)
  /\ number_of (fun t => status t = "done") (tasks db) (done s)
  /\ number_of (fun t => status t = "blocked") (tasks db) (blocked s)
  /\ number_of (overdue_at now) (tasks db) (overdue s)
  /\ (forall before t after,
        tasks db = before ++ t :: after ->
        status t = "done" \/ status t = "blocked" ->
        overdue s
        = overdue (get_task_stats
                     {| tasks := before ++ after;
                        sqlite_sequence := sqlite_sequence db |} now)).
Proof.
  cbn zeta. unfold get_task_stats, query.
  cbn [total todo inprogress done blocked overdue tasks].
  split.
  { rewrite <- (filter_all_true (fun _ => true) (tasks db)) at 2 by reflexivity.
    apply count_filter_number_of. intros t. tauto. }
  repeat (split;
    [apply count_filter_number_of; intros t; apply String.eqb_eq|]).
  split.
  - apply count_filter_number_of. intros t. apply overdue_test_spec.
  - intros before t after Hsplit Hclosed. rewrite Hsplit.
    now rewrite overdue_skips_closed.
Qed.

(** ** The roots of the hierarchy view *)

Lemma tasks_by_id_keys (all_tasks : list Task) (m : gmap string Task) (k : string) :
  is_Some (fold_left (fun m t => <[task_id t := t]> m) all_tasks m !! k)
  <-> is_Some (m !! k) \/ exists u, In u all_tasks /\ task_id u = k.
Proof.
  revert m. induction all_tasks as [|t rest IH]; intros m; simpl.
  - split; [now left | intros [H | (u & [] & _)]; exact H].
  - rewrite IH. rewrite lookup_insert_is_Some. split.
    + intros [[Heq | [_ H]] | (u & Hu & Hk)].
      * right. exists t. split; [now left | exact Heq].
      * now left.
      * right. exists u. split; [now right | exact Hk].
    + intros [H | (u & [-> | Hu] & Hk)].
      * left. destruct (decide (task_id t = k)); [now left | right; tauto].
      * left. now left.
      * right. now exists u.
Qed.

(** C8. Among tasks whose ids are not empty, as the generated UUIDs are,
    [render_task_hierarchy] takes as roots exactly the tasks of the given set
    whose parent reference is absent or is the id of no task of the set; in
    particular a task whose parent is not in the set is a root. *)
Theorem root_tasks_exactly (all_tasks : list Task) (t : Task) :
  (forall u, In u all_tasks -> task_id u <> "") ->
  (In t (app.root_tasks all_tasks)
   <-> In t all_tasks
       /\ (parent_task_id t = None
           \/ exists p, parent_task_id t = Some p
                /\ ~ exists u, In u all_tasks /\ task_id u = p))
  /\ (forall p, In t all_tasks -> parent_task_id t = Some p ->
        (forall u, In u all_tasks -> task_id u <> p) ->
        In t (app.root_tasks all_tasks)).
Proof.
  intros Hids.
  assert (In t (app.root_tasks all_tasks)
   <-> In t all_tasks
       /\ (parent_task_id t = None
           \/ exists p, parent_task_id t = Some p
                /\ ~ exists u, In u all_tasks /\ task_id u = p)) as Hroot.
  { unfold app.root_tasks. rewrite filter_In.
    apply and_iff_compat_l. unfold app.parent_ref.
    destruct (parent_task_id t) as [p|].
    - destruct (String.eqb p "") eqn:Ep.
      + apply String.eqb_eq in Ep. subst p. split; [intros _ | reflexivity].
        right. exists "". split; [reflexivity|].
        intros (u & Hu & Hk). now apply (Hids u).
      + rewrite negb_true_iff, bool_decide_eq_false.
        unfold app.tasks_by_id. rewrite tasks_by_id_keys.
        rewrite lookup_empty. split.
        * intros H. right. exists p. split; [reflexivity|].
          intros Hex. apply H. now right.
        * intros [H | (p' & [= <-] & H)]; [discriminate|].
          intros [Hs | Hex]; [now apply is_Some_None in Hs | now apply H].
    - split; [now left | reflexivity]. }
  split; [exact Hroot|].
  intros p Hin Hp Hnone. apply Hroot. split; [exact Hin|].
  right. exists p. split; [exact Hp|]. intros (u & Hu & Hk). now apply (Hnone u).
Qed.

(** ** The AI draft adapter *)

Lemma blankb_spec (s : string) : blankb s = true <-> blank s.
Proof.
  unfold blank. induction s as [|c s IH]; simpl.
  - split; [intros _ c [] | reflexivity].
  - rewrite andb_true_iff, IH. split.
    + intros [Hc Hs] c' [<- | Hin]; [exact Hc | now apply Hs].
    + intros H. split; [apply H; now left | intros c' Hc'; apply H; now right].
Qed.

Lemma rstrip_nonspace (c : ascii) (s : string) :
  isspace c = false -> rstrip (String c s) <> "".
Proof.
  intros Hc. simpl. destruct (rstrip s); [rewrite Hc|]; discriminate.
Qed.

Lemma strip_empty_blank (s : string) :
  String.eqb (strip s) "" = blankb s.
Proof.
  unfold strip. induction s as [|c s IH]; [reflexivity|].
  cbn [lstrip blankb]. destruct (isspace c) eqn:Hc; [exact IH|].
  cbn [andb]. apply String.eqb_neq. now apply rstrip_nonspace.
Qed.

Lemma kept_entry_nonblank (repr : json -> string) (s : string) :
  truthy (JStr s) && negb (String.eqb (strip (py_str repr (JStr s))) "")
  = negb (blankb s).
Proof.
  cbn [truthy py_str]. rewrite strip_empty_blank.
  destruct s; reflexivity.
Qed.

Lemma clean_sub_tasks_strings (repr : json -> string) (entries : list string) :
  clean_sub_tasks repr (List.map JStr entries)
  = List.map (slice_to 255) (List.filter (fun s => negb (blankb s)) entries).
Proof.
  unfold clean_sub_tasks. induction entries as [|s entries IH]; [reflexivity|].
  cbn [List.map List.filter]. rewrite kept_entry_nonblank.
  destruct (negb (blankb s)); cbn [List.map]; now rewrite IH.
Qed.

Lemma object_with_key_truthy (members : gmap string json) (k : string) (v : json) :
  members !! k = Some v -> truthy (JObj members) = true.
Proof.
  intros H. cbn [truthy]. apply negb_true_iff, bool_decide_eq_false.
  intros ->. now rewrite lookup_empty in H.
Qed.

Lemma breakdown_task_strings (repr : json -> string)
    (members : gmap string json) (entries : list string) :
  members !! "sub_tasks" = Some (JList (List.map JStr entries)) ->
  entries <> [] ->
  breakdown_task repr (response_json (JObj members))
  = Return (Some (List.map (slice_to 255)
                    (List.filter (fun s => negb (blankb s)) entries))).
Proof.
  intros Hget Hne. unfold breakdown_task. cbn [call_gemini].
  rewrite (object_with_key_truthy _ _ _ Hget). cbn [py_in].
  rewrite bool_decide_eq_true_2 by (rewrite Hget; eauto).
  rewrite Hget. destruct entries as [|e entries]; [congruence|].
  cbn [List.map]. now rewrite <- (clean_sub_tasks_strings repr (e :: entries)).
Qed.

Lemma slice_to_length (n : nat) (s : string) :
  (String.length (slice_to n s) <= n)%nat.
Proof.
  revert s. induction n as [|n IH]; intros [|c s]; simpl; try lia.
  specialize (IH s). lia.
Qed.

Lemma slice_to_short (n : nat) (s : string) :
  (String.length s <= n)%nat -> slice_to n s = s.
Proof.
  revert s. induction n as [|n IH]; intros [|c s]; simpl; intros H;
    try reflexivity; try lia.
  f_equal. apply IH. lia.
Qed.

(** C2, as the code has it. For a reply that is an object whose [sub_tasks]
    is a list of one or more strings, [breakdown_task] returns the entries
    that are not blank, in their order, each cut to its first 255 characters
    and none of them trimmed: an entry no longer than 255 characters comes
    back as it was sent, surrounding white space included. *)
Theorem breakdown_keeps_nonblank_untrimmed (repr : json -> string)
    (members : gmap string json) (entries : list string) :
  members !! "sub_tasks" = Some (JList (List.map JStr entries)) ->
  entries <> [] ->
  exists kept,
    breakdown_task repr (response_json (JObj members)) = Return (Some kept)
    /\ kept = List.map (slice_to 255)
                (List.filter (fun s => negb (blankb s)) entries)
    /\ (forall s, In s entries -> ~ blank s -> (String.length s <= 255)%nat ->
          In s kept)
    /\ (forall s, In s kept -> (String.length s <= 255)%nat).
Proof.
  intros Hget Hne. eexists.
  split; [exact (breakdown_task_strings repr members entries Hget Hne)|].
  split; [reflexivity|]. split.
  - intros s Hin Hnb Hlen. apply in_map_iff. exists s.
    split; [now apply slice_to_short|]. apply filter_In. split; [exact Hin|].
    apply negb_true_iff, not_true_iff_false. now rewrite blankb_spec.
  - intros s Hin. apply in_map_iff in Hin. destruct Hin as (e & <- & _).
    apply slice_to_length.
Qed.

(** C9. For a reply whose [sub_tasks] is a list of one or more strings, all
    of them empty or white space only, [breakdown_task] returns the empty
    list, not nothing: the check for one entry or more is made on the list
    as it was received. *)
Theorem breakdown_all_blank_is_empty (repr : json -> string)
    (members : gmap string json) (entries : list string) :
  members !! "sub_tasks" = Some (JList (List.map JStr entries)) ->
  entries <> [] ->
  (forall s, In s entries -> blank s) ->
  breakdown_task repr (response_json (JObj members)) = Return (Some []).
Proof.
  intros Hget Hne Hblank.
  rewrite (breakdown_task_strings repr members entries Hget Hne).
  do 2 f_equal. replace (List.filter _ entries) with (@nil string); [reflexivity|].
  symmetry. clear Hget Hne.
  induction entries as [|s entries IH]; [reflexivity|].
  cbn [List.filter].
  rewrite (proj2 (blankb_spec s) (Hblank s (or_introl eq_refl))).
  cbn [negb]. apply IH. intros x Hx. apply Hblank. now right.
Qed.

(** On the example reply the entries come back untrimmed, so the result is
    not the trimmed list. *)
Lemma breakdown_milk_not_trimmed :
  breakdown_task unused_repr milk_reply <> Return (Some ["Buy milk"; "Call vet"]).
Proof.
  assert (breakdown_task unused_repr milk_reply
          = Return (Some [" Buy milk "; "Call vet"])) as ->
    by (vm_compute; reflexivity).
  discriminate.
Qed.

Lemma breakdown_milk_witness :
  milk_members !! "sub_tasks"
  = Some (JList (List.map JStr [""; " Buy milk "; "Call vet"]))
  /\ [""; " Buy milk "; "Call vet"] <> []
  /\ breakdown_task unused_repr milk_reply
     = Return (Some [" Buy milk "; "Call vet"]).
Proof.
  assert (milk_members !! "sub_tasks"
          = Some (JList (List.map JStr [""; " Buy milk "; "Call vet"]))) as Hget
    by (vm_compute; reflexivity).
  assert ([""; " Buy milk "; "Call vet"] <> []) as Hne by discriminate.
  split; [exact Hget|]. split; [exact Hne|].
  destruct (breakdown_keeps_nonblank_untrimmed unused_repr _ _ Hget Hne)
    as (kept & Hrun & Hkept & _).
  unfold milk_reply. rewrite Hrun, Hkept. vm_compute. reflexivity.
Defined.

Lemma breakdown_blank_witness :
  blank_members !! "sub_tasks" = Some (JList (List.map JStr [""; "   "]))
  /\ [""; "   "] <> []
  /\ (forall s, In s [""; "   "] -> blank s)
  /\ breakdown_task unused_repr (response_json (JObj blank_members))
     = Return (Some []).
Proof.
  assert (blank_members !! "sub_tasks"
          = Some (JList (List.map JStr [""; "   "]))) as Hget
    by (vm_compute; reflexivity).
  assert ([""; "   "] <> []) as Hne by discriminate.
  assert (forall s, In s [""; "   "] -> blank s) as Hblank.
  { intros s [<- | [<- | []]]; apply blankb_spec; reflexivity. }
  split; [exact Hget|]. split; [exact Hne|]. split; [exact Hblank|].
  exact (breakdown_all_blank_is_empty unused_repr _ _ Hget Hne Hblank).
Defined.

(** *** Parsing a draft *)

Lemma parse_object_without_title (repr : json -> string)
    (members : gmap string json) :
  members !! "title" = None ->
  parse_task_input repr (response_json (JObj members)) = Return None.
Proof.
  intros Hget. unfold parse_task_input. cbn [call_gemini].
  destruct (truthy (JObj members)); [|reflexivity]. cbn [py_in].
  rewrite bool_decide_eq_false_2; [reflexivity|].
  rewrite Hget. apply is_Some_None.
Qed.

Lemma parse_object_with_title (repr : json -> string)
    (members : gmap string json) (v : json) :
  members !! "title" = Some v ->
  parse_task_input repr (response_json (JObj members))
  = Return (Some
      {| gemini_utils.title := slice_to 255 (py_str repr v);
         gemini_utils.description := dict_get members "description";
         gemini_utils.priority :=
           match dict_get members "priority" with
           | JStr p =>
               if str_in p ["low"; "medium"; "high"; "urgent"] then p else "medium"
           | _ => "medium"
           end;
         gemini_utils.due_date := dict_get members "due_date" |}).
Proof.
  intros Hget. unfold parse_task_input. cbn [call_gemini].
  rewrite (object_with_key_truthy _ _ _ Hget). cbn [py_in].
  rewrite bool_decide_eq_true_2 by (rewrite Hget; eauto).
  now rewrite Hget.
Qed.

(** On failed calls and on reply objects: [parse_task_input] returns nothing
    when the Gemini call fails (not configured, an API error, a reply that
    is not JSON) and when the reply object has no title. When the object has
    a title it returns a draft: the
    title is the text of the reply's title cut to its first 255 characters,
    the priority is the reply's when that is low, medium, high or urgent and
    medium otherwise, and the due date is the reply's value as it came,
    nothing when the reply has none. *)
Lemma parse_task_input_draft (repr : json -> string) :
  parse_task_input repr not_configured = Return None
  /\ parse_task_input repr api_error = Return None
  /\ parse_task_input repr json_decode_error = Return None
  /\ forall members : gmap string json,
       match members !! "title" with
       | None => parse_task_input repr (response_json (JObj members)) = Return None
       | Some v =>
           exists draft,
             parse_task_input repr (response_json (JObj members))
             = Return (Some draft)
             /\ gemini_utils.title draft = slice_to 255 (py_str repr v)
             /\ (String.length (gemini_utils.title draft) <= 255)%nat
             /\ (forall s, v = JStr s -> (String.length s <= 255)%nat ->
                   gemini_utils.title draft = s)
             /\ (forall p, members !! "priority" = Some (JStr p) ->
                   In p ["low"; "medium"; "high"; "urgent"] ->
                   gemini_utils.priority draft = p)
             /\ ((forall p, members !! "priority" = Some (JStr p) ->
                    ~ In p ["low"; "medium"; "high"; "urgent"]) ->
                 gemini_utils.priority draft = "medium")
             /\ (forall d, members !! "due_date" = Some d ->
                   gemini_utils.due_date draft = d)
             /\ (members !! "due_date" = None ->
                 gemini_utils.due_date draft = JNull)
       end.
Proof.
  repeat (split; [reflexivity|]).
  intros members. destruct (members !! "title") as [v|] eqn:Hget;
    [|now apply parse_object_without_title].
  eexists. split; [exact (parse_object_with_title repr members v Hget)|].
  cbn [gemini_utils.title gemini_utils.priority gemini_utils.due_date].
  split; [reflexivity|]. split; [apply slice_to_length|].
  split; [intros s -> Hlen; now apply slice_to_short|].
  unfold dict_get. split; [|split; [|split]].
  - intros p -> Hin. now rewrite (proj2 (str_in_In _ _) Hin).
  - intros Hno. destruct (members !! "priority") as [[| | | |p| |]|];
      try reflexivity.
    now rewrite (proj2 (str_in_not_In _ _) (Hno p eq_refl)).
  - now intros d ->.
  - now intros ->.
Qed.

(** C3. Where the claim has nothing returned for a malformed structure, the
    code raises on a reply that is JSON but not an object, against its
    docstring (Or None on failure): a TypeError on the number 42 and on
    true, where the test for the title key fails, and an AttributeError on
    the list holding the string title and on the string my title, which
    pass that test and have no [get]. *)
Theorem parse_task_input_raises_on_malformed (repr : json -> string) :
  parse_task_input repr (response_json (JInt 42)) = Raise TypeError
  /\ parse_task_input repr (response_json (JBool true)) = Raise TypeError
  /\ parse_task_input repr (response_json (JList [JStr "title"]))
     = Raise AttributeError
  /\ parse_task_input repr (response_json (JStr "my title"))
     = Raise AttributeError
  /\ (forall reply, call_gemini reply = Some (JInt 42) ->
        parse_task_input repr reply <> Return None).
Proof.
  repeat (split; [reflexivity|]).
  intros reply Hreply. unfold parse_task_input. rewrite Hreply.
  cbn [truthy]. discriminate.
Qed.

(** C10. [parse_task_input] returns nothing only when the Gemini call fails
    or the reply has no title key: for a reply object, exactly when the key
    is missing. A reply object whose title is null yields a draft, with the
    text None as its title. *)
Theorem parse_task_input_absent_only (repr : json -> string) :
  (forall members : gmap string json,
     parse_task_input repr (response_json (JObj members)) = Return None
     <-> members !! "title" = None)
  /\ (forall reply,
        parse_task_input repr reply = Return None ->
        call_gemini reply = None
        \/ exists v, reply = response_json v
             /\ match v with
                | JObj members => members !! "title" = None
                | _ => True
                end)
  /\ (forall members : gmap string json,
        members !! "title" = Some JNull ->
        exists draft,
          parse_task_input repr (response_json (JObj members))
          = Return (Some draft)
          /\ gemini_utils.title draft = "None").
Proof.
  assert (forall members : gmap string json,
     parse_task_input repr (response_json (JObj members)) = Return None
     <-> members !! "title" = None) as Hobj.
  { intros members. split.
    - destruct (members !! "title") as [v|] eqn:Hget; [|reflexivity].
      rewrite (parse_object_with_title repr members v Hget). discriminate.
    - apply parse_object_without_title. }
  split; [exact Hobj|]. split.
  - intros [| | |v] Hnone; try (left; reflexivity).
    right. exists v. split; [reflexivity|].
    destruct v; try exact I. now apply Hobj.
  - intros members Hget. eexists.
    split; [exact (parse_object_with_title repr members JNull Hget)|].
    reflexivity.
Qed.

(** ** Worked examples *)

(** The ranking example of the specification. *)
Example next_task_ranking :
  get_next_priority_task
    {| tasks := [high_2023; urgent_feb; urgent_jan]; sqlite_sequence := 3 |}
  = Some urgent_jan
  /\ get_next_priority_task
       {| tasks := [high_2023; urgent_feb]; sqlite_sequence := 3 |}
     = Some urgent_feb
  /\ get_next_priority_task
       {| tasks := [row 1 "x" "done" "urgent" None None 1;
                    row 2 "y" "blocked" "high" None None 2];
          sqlite_sequence := 2 |}
     = None.
Proof. repeat split; vm_compute; reflexivity. Qed.

Example task_stats_five :
  get_task_stats five_tasks d2024_01_15
  = {| total := 5; todo := 2; inprogress := 1; done := 1; blocked := 1;
       overdue := 1 |}.
Proof. vm_compute. reflexivity. Qed.

Example parse_call_mom :
  parse_task_input unused_repr (response_json (JObj call_mom))
  = Return (Some {| gemini_utils.title := "Call mom";
                    gemini_utils.description := JNull;
                    gemini_utils.priority := "urgent";
                    gemini_utils.due_date := JStr "2024-01-02" |})
  /\ parse_task_input unused_repr
       (response_json (JObj (delete "title" call_mom)))
     = Return None.
Proof. split; vm_compute; reflexivity. Qed.

(** A reply that is not an object can make the adapter raise. *)
Example parse_number_raises :
  parse_task_input unused_repr (response_json (JInt 42)) = Raise TypeError
  /\ parse_task_input unused_repr (response_json (JList [JStr "title"]))
     = Raise AttributeError.
Proof. split; reflexivity. Qed.

(** *** Instances of the theorems with hypotheses *)

Ltac wf_concrete :=
  unfold wf_session; cbn;
  repeat split;
  repeat (constructor; cbn);
  intuition (subst; cbn in *; first [discriminate | lia | idtac]).

Lemma empty_session_wf : wf_session empty_session.
Proof. wf_concrete. Qed.

Lemma delete_task_witness :
  wf_session empty_session
  /\ (let withP :=
        create_task empty_session "P" 1 1 "parent" None "todo" "medium" None None in
      let withC :=
        create_task (fst withP) "C" 2 2 "child" None "todo" "medium" None
          (Some "P") in
      snd (delete_task (fst withC) "P") = false
      /\ snd (delete_task (fst withC) "C") = true
      /\ snd (delete_task (fst (delete_task (fst withC) "C")) "P") = true).
Proof.
  split; [exact empty_session_wf|].
  refine (proj2 (proj2 (proj2
            (delete_task_refuses_or_removes empty_session "P" empty_session_wf)))
            "C" 1 1 2 2 "parent" None "todo" "medium" None None
            "child" None "todo" "medium" None _ _ _ _).
  - discriminate.
  - intros t [].
  - discriminate.
  - discriminate.
Defined.

Lemma one_task_wf : wf_session one_task.
Proof. wf_concrete. Qed.

Lemma update_without_fields_witness :
  wf_session one_task
  /\ In (row 1 "t1" "todo" "medium" None None 10) (tasks one_task)
  /\ exists T',
       snd (update_task one_task "t1" None None None None None None false false 20)
       = Some T'
       /\ status T' = "todo" /\ created_at T' = 10 /\ updated_at T' = 20.
Proof.
  assert (In (row 1 "t1" "todo" "medium" None None 10) (tasks one_task)) as Hin
    by (now left).
  split; [exact one_task_wf|]. split; [exact Hin|].
  destruct (update_without_fields_sets_clock one_task _ 20 one_task_wf Hin)
    as (T' & Hrun & _ & _ & _ & _ & Hst & _ & _ & _ & Hcr & Hup & _).
  exists T'. split; [exact Hrun|]. split; [exact Hst|]. split; [exact Hcr|].
  exact Hup.
Defined.

(** A task last written at 10 and updated, with no field supplied, when the
    clock reads 3: [updated_at] becomes 3 and has not increased. *)
Lemma update_with_clock_behind :
  match snd (update_task one_task "t1" None None None None None None
               false false 3) with
  | Some T' =>
      updated_at T' = 3
      /\ ~ updated_at (row 1 "t1" "todo" "medium" None None 10) < updated_at T'
  | None => False
  end.
Proof. cbn. split; [reflexivity | lia]. Qed.

Lemma enums_stay_valid_witness :
  (forall t, In t (tasks one_task) -> valid_enums t)
  /\ status (snd (create_task one_task "n" 5 5 "new" None "later" "asap" None None))
     = "todo"
  /\ database.priority
       (snd (create_task one_task "n" 5 5 "new" None "later" "asap" None None))
     = "medium".
Proof.
  assert (forall t, In t (tasks one_task) -> valid_enums t) as Hvalid.
  { intros t [<- | []]. unfold valid_enums. cbn. tauto. }
  split; [exact Hvalid|].
  destruct (proj1 (enums_stay_valid one_task Hvalid)
              "n" 5 5 "new" None "later" "asap" None None)
    as (_ & _ & _ & Hst & _ & Hpr).
  split; [apply Hst | apply Hpr]; cbn; intuition discriminate.
Defined.

Lemma root_tasks_witness :
  (forall u, In u [row 1 "top" "done" "low" None None 1; orphan] ->
     task_id u <> "")
  /\ In orphan (app.root_tasks [row 1 "top" "done" "low" None None 1; orphan]).
Proof.
  assert (forall u, In u [row 1 "top" "done" "low" None None 1; orphan] ->
            task_id u <> "") as Hids.
  { intros u [<- | [<- | []]]; discriminate. }
  split; [exact Hids|].
  apply (proj2 (root_tasks_exactly _ orphan Hids) "gone").
  - right. now left.
  - reflexivity.
  - intros u [<- | [<- | []]]; discriminate.
Defined.

(** * Further properties of the code *)

(** ** ORDER BY: a sorted rearrangement of the rows *)

Section SortedRows.

Variable cmp : Task -> Task -> comparison.
Hypothesis cmp_total : forall a b, cmp a b = Gt -> cmp b a <> Gt.
Hypothesis cmp_trans : forall a b c, cmp a b <> Gt -> cmp b c <> Gt -> cmp a c <> Gt.

Lemma insert_row_perm (x : Task) (rows : list Task) :
  Permutation (insert_row cmp x rows) (x :: rows).
Proof.
  induction rows as [|y rows IH]; simpl; [reflexivity|].
  destruct (cmp x y); try reflexivity.
  rewrite IH. apply perm_swap.
Qed.

Lemma sorted_rows_perm (rows : list Task) :
  Permutation (fold_right (insert_row cmp) [] rows) rows.
Proof.
  induction rows as [|x rows IH]; simpl; [reflexivity|].
  rewrite insert_row_perm. now constructor.
Qed.

Lemma insert_row_sorted (x : Task) (rows : list Task) :
  StronglySorted (fun a b => cmp a b <> Gt) rows ->
  StronglySorted (fun a b => cmp a b <> Gt) (insert_row cmp x rows).
Proof.
  induction rows as [|y rows IH]; simpl; intros Hs.
  - constructor; constructor.
  - inversion Hs as [|? ? Hs' Hall]; subst.
    assert (cmp x y <> Gt ->
            StronglySorted (fun a b => cmp a b <> Gt) (x :: y :: rows)) as Hfront.
    { intros Hxy. constructor; [exact Hs|]. constructor; [exact Hxy|].
      eapply List.Forall_impl; [|exact Hall]. intros c Hc. now apply cmp_trans with y. }
    destruct (cmp x y) eqn:E; try (apply Hfront; congruence).
    constructor; [now apply IH|].
    apply (Permutation_Forall (Permutation_sym (insert_row_perm x rows))).
    constructor; [now apply cmp_total | exact Hall].
Qed.

Lemma sorted_rows_sorted (rows : list Task) :
  StronglySorted (fun a b => cmp a b <> Gt) (fold_right (insert_row cmp) [] rows).
Proof.
  induction rows as [|x rows IH]; simpl; [constructor|].
  now apply insert_row_sorted.
Qed.

End SortedRows.

Lemma StronglySorted_impl {A : Type} (R S : A -> A -> Prop) (l : list A) :
  (forall a b, R a b -> S a b) -> StronglySorted R l -> StronglySorted S l.
Proof.
  intros HRS. induction 1 as [|a l Hs IH Hall]; constructor; [exact IH|].
  eapply List.Forall_impl; [|exact Hall]. intros b. apply HRS.
Qed.

Lemma desc_created_not_gt (a b : Task) :
  order_cmp [desc created_at] a b <> Gt <-> created_at b <= created_at a.
Proof.
  unfold order_cmp, desc.
  destruct (Z.compare_spec (created_at b) (created_at a)) as [E | E | E];
    split; intros Hc; try lia; try congruence.
Qed.

Lemma asc_created_not_gt (a b : Task) :
  order_cmp [asc created_at] a b <> Gt <-> created_at a <= created_at b.
Proof.
  unfold order_cmp, asc.
  destruct (Z.compare_spec (created_at a) (created_at b)) as [E | E | E];
    split; intros Hc; try lia; try congruence.
Qed.

Lemma order_by_desc_created (rows : list Task) :
  Permutation (order_by [desc created_at] rows) rows
  /\ StronglySorted (fun a b => created_at b <= created_at a)
       (order_by [desc created_at] rows).
Proof.
  unfold order_by. split; [apply sorted_rows_perm|].
  apply StronglySorted_impl with (R := fun a b => order_cmp [desc created_at] a b <> Gt);
    [intros a b; apply desc_created_not_gt|].
  apply sorted_rows_sorted.
  - intros a b H. apply desc_created_not_gt.
    assert (~ created_at b <= created_at a) as Hn
      by (intros Hle; now apply desc_created_not_gt in Hle).
    lia.
  - intros a b c Hab Hbc. apply desc_created_not_gt.
    apply desc_created_not_gt in Hab, Hbc. lia.
Qed.

Lemma order_by_asc_created (rows : list Task) :
  Permutation (order_by [asc created_at] rows) rows
  /\ StronglySorted (fun a b => created_at a <= created_at b)
       (order_by [asc created_at] rows).
Proof.
  unfold order_by. split; [apply sorted_rows_perm|].
  apply StronglySorted_impl with (R := fun a b => order_cmp [asc created_at] a b <> Gt);
    [intros a b; apply asc_created_not_gt|].
  apply sorted_rows_sorted.
  - intros a b H. apply asc_created_not_gt.
    assert (~ created_at a <= created_at b) as Hn
      by (intros Hle; now apply asc_created_not_gt in Hle).
    lia.
  - intros a b c Hab Hbc. apply asc_created_not_gt.
    apply asc_created_not_gt in Hab, Hbc. lia.
Qed.

Lemma get_all_tasks_rows (db : Session) :
  Permutation (get_all_tasks db) (tasks db)
  /\ StronglySorted (fun a b => created_at b <= created_at a) (get_all_tasks db).
Proof. apply order_by_desc_created. Qed.

(** X1. [get_all_tasks] returns the rows of the table, each as often as it
    is stored, ordered newest first. *)
Theorem get_all_tasks_newest_first (db : Session) :
  Permutation (get_all_tasks db) (tasks db)
  /\ StronglySorted (fun a b => created_at b <= created_at a) (get_all_tasks db).
Proof. apply get_all_tasks_rows. Qed.

(** X2. [get_tasks_by_status] returns exactly the stored tasks with the
    status asked for, newest first; for each of the four statuses their
    number is the count that [get_task_stats] reports. *)
Theorem get_tasks_by_status_exact (db : Session) (wanted : string) (now : Z) :
  (forall t, In t (get_tasks_by_status db wanted)
             <-> In t (tasks db) /\ status t = wanted)
  /\ StronglySorted (fun a b => created_at b <= created_at a)
       (get_tasks_by_status db wanted)
  /\ count (get_tasks_by_status db "todo") = todo (get_task_stats db now)
  /\ count (get_tasks_by_status db "inprogress")
     = inprogress (get_task_stats db now)
  /\ count (get_tasks_by_status db "done") = done (get_task_stats db now)
  /\ count (get_tasks_by_status db "blocked") = blocked (get_task_stats db now).
Proof.
  unfold get_tasks_by_status, query.
  split.
  { intros t.
    destruct (order_by_desc_created
                (List.filter (fun t => String.eqb (status t) wanted) (tasks db)))
      as [Hperm _].
    split.
    - intros H. apply (Permutation_in _ Hperm) in H. apply filter_In in H.
      now rewrite String.eqb_eq in H.
    - intros H. apply (Permutation_in _ (Permutation_sym Hperm)).
      apply filter_In. now rewrite String.eqb_eq. }
  split; [apply order_by_desc_created|].
  unfold get_task_stats, count, query. cbn [todo inprogress done blocked].
  repeat split; f_equal; apply Permutation_length, order_by_desc_created.
Qed.

(** X3. [get_subtasks] returns exactly the stored tasks whose parent
    reference is the given id, oldest first, and [has_subtasks] is true
    exactly when that list is not empty. *)
Theorem get_subtasks_exact (db : Session) (tid : string) :
  (forall t, In t (get_subtasks db tid)
             <-> In t (tasks db) /\ parent_task_id t = Some tid)
  /\ StronglySorted (fun a b => created_at a <= created_at b) (get_subtasks db tid)
  /\ (has_subtasks db tid = true <-> get_subtasks db tid <> []).
Proof.
  unfold get_subtasks, query.
  destruct (order_by_asc_created (List.filter (parent_is tid) (tasks db)))
    as [Hperm Hsorted].
  assert (forall t, In t (order_by [asc created_at]
                            (List.filter (parent_is tid) (tasks db)))
                    <-> In t (tasks db) /\ parent_task_id t = Some tid) as Hmem.
  { intros t. split.
    - intros H. apply (Permutation_in _ Hperm) in H. apply filter_In in H.
      now rewrite parent_is_spec in H.
    - intros H. apply (Permutation_in _ (Permutation_sym Hperm)).
      apply filter_In. now rewrite parent_is_spec. }
  split; [exact Hmem|]. split; [exact Hsorted|].
  rewrite has_subtasks_spec. split.
  - intros (c & Hc) Hnil. apply Hmem in Hc. rewrite Hnil in Hc. destruct Hc.
  - intros Hne.
    destruct (order_by [asc created_at] (List.filter (parent_is tid) (tasks db)))
      as [|c rest] eqn:E; [congruence|].
    exists c. apply Hmem. now left.
Qed.

Lemma root_tasks_In (all_tasks : list Task) (t : Task) :
  In t all_tasks -> parent_task_id t = None -> In t (app.root_tasks all_tasks).
Proof.
  intros Hin Hp. unfold app.root_tasks. apply filter_In. split; [exact Hin|].
  unfold app.parent_ref. now rewrite Hp.
Qed.

(** X4. [get_root_tasks] returns exactly the stored tasks without a parent
    reference, newest first, and each of them is among the roots that the
    hierarchy view takes from the full listing. *)
Theorem get_root_tasks_exact (db : Session) :
  (forall t, In t (get_root_tasks db)
             <-> In t (tasks db) /\ parent_task_id t = None)
  /\ StronglySorted (fun a b => created_at b <= created_at a) (get_root_tasks db)
  /\ (forall t, In t (get_root_tasks db) ->
        In t (app.root_tasks (get_all_tasks db))).
Proof.
  unfold get_root_tasks, query.
  destruct (order_by_desc_created (List.filter parent_is_null (tasks db)))
    as [Hperm Hsorted].
  assert (forall t, In t (order_by [desc created_at]
                            (List.filter parent_is_null (tasks db)))
                    <-> In t (tasks db) /\ parent_task_id t = None) as Hmem.
  { intros t.
    assert (In t (List.filter parent_is_null (tasks db))
            <-> In t (tasks db) /\ parent_task_id t = None) as Hfilter.
    { rewrite filter_In. unfold parent_is_null.
      destruct (parent_task_id t); split; intros [H1 H2]; split; congruence. }
    rewrite <- Hfilter. split.
    - apply (Permutation_in _ Hperm).
    - apply (Permutation_in _ (Permutation_sym Hperm)). }
  split; [exact Hmem|]. split; [exact Hsorted|].
  intros t Ht. apply Hmem in Ht. destruct Ht as [Hin Hp].
  apply root_tasks_In; [|exact Hp].
  apply (Permutation_in _ (Permutation_sym (proj1 (get_all_tasks_rows db)))).
  exact Hin.
Qed.

(** ** Counts that agree *)

Lemma count_cons (p : Task -> bool) (t : Task) (rows : list Task) :
  count (List.filter p (t :: rows))
  = (if p t then 1 else 0) + count (List.filter p rows).
Proof.
  unfold count. cbn [List.filter]. destruct (p t); cbn [List.length]; lia.
Qed.

Lemma count_nonneg (rows : list Task) : 0 <= count rows.
Proof. unfold count. lia. Qed.

Lemma count_zero (rows : list Task) : count rows = 0 <-> rows = [].
Proof.
  unfold count. destruct rows; cbn [List.length]; split; intros H;
    try reflexivity; try discriminate; lia.
Qed.

Lemma open_count_split (rows : list Task) :
  count (List.filter (fun t => String.eqb (status t) "todo") rows)
  + count (List.filter (fun t => String.eqb (status t) "inprogress") rows)
  = count (List.filter (fun t => str_in (status t) ["todo"; "inprogress"]) rows).
Proof.
  induction rows as [|t rows IH]; [reflexivity|].
  rewrite !count_cons. unfold str_in at 1. cbn [existsb].
  destruct (String.eqb (status t) "todo") eqn:E1.
  - assert (String.eqb (status t) "inprogress" = false) as E2
      by (apply String.eqb_eq in E1; now rewrite E1).
    rewrite E2. cbn [orb]. lia.
  - destruct (String.eqb (status t) "inprogress"); cbn [orb]; lia.
Qed.

Lemma order_by_nil (clauses : list order_clause) (rows : list Task) :
  first (order_by clauses rows) = None <-> rows = [].
Proof.
  unfold order_by. split.
  - intros H. destruct rows as [|x rows]; [reflexivity|]. simpl in H.
    destruct (first_insert_row (order_cmp clauses) x
                (fold_right (insert_row (order_cmp clauses)) [] rows))
      as [E | (y & _ & _ & E)]; congruence.
  - now intros ->.
Qed.

(** X5. The number of tasks that Focus Mode reports as remaining, todo plus
    inprogress of [get_task_stats], is the number of tasks that
    [get_incomplete_tasks] lists, which are exactly the stored tasks with
    status todo or inprogress; [get_next_priority_task] finds no task
    exactly when that number is zero. *)
Theorem remaining_agrees_with_next (db : Session) (now : Z) :
  todo (get_task_stats db now) + inprogress (get_task_stats db now)
  = count (get_incomplete_tasks db)
  /\ (forall t, In t (get_incomplete_tasks db) <-> In t (tasks db) /\ candidate t)
  /\ (get_next_priority_task db = None
      <-> todo (get_task_stats db now) + inprogress (get_task_stats db now) = 0).
Proof.
  unfold get_task_stats, get_incomplete_tasks, get_next_priority_task, query.
  cbn [todo inprogress]. rewrite open_count_split.
  split; [reflexivity|]. split.
  - intros t. rewrite filter_In, status_in_candidate. reflexivity.
  - rewrite order_by_nil, count_zero. reflexivity.
Qed.

(** X6. When every stored status is one of the four enumerated values, the
    total of [get_task_stats] is the sum of its four status counts; in any
    case no count is negative, overdue is at most todo plus inprogress, and
    that sum is at most the total. *)
Theorem task_stats_add_up (db : Session) (now : Z) :
  (forall t, In t (tasks db) -> In (status t) VALID_STATUSES) ->
  let s := get_task_stats db now in
  total s = todo s + inprogress s + done s + blocked s
  /\ 0 <= overdue s <= todo s + inprogress s
  /\ todo s + inprogress s <= total s
  /\ 0 <= todo s /\ 0 <= inprogress s /\ 0 <= done s /\ 0 <= blocked s.
Proof.
  intros Hvalid. cbn zeta. unfold get_task_stats, query.
  cbn [total todo inprogress done blocked overdue].
  split; [|split; [|split]].
  - induction (tasks db) as [|t rows IH]; [reflexivity|].
    rewrite !count_cons.
    replace (count (t :: rows)) with (1 + count rows)
      by (unfold count; cbn [List.length]; lia).
    rewrite IH by (intros x Hx; apply Hvalid; now right).
    destruct (Hvalid t (or_introl eq_refl)) as [E | [E | [E | [E | []]]]];
      rewrite <- E; cbn; lia.
  - rewrite open_count_split. split; [apply count_nonneg|].
    clear Hvalid. induction (tasks db) as [|t rows IH]; [reflexivity|].
    rewrite !count_cons.
    destruct (due_before now t), (str_in (status t) ["todo"; "inprogress"]);
      cbn [andb]; lia.
  - rewrite open_count_split. clear Hvalid.
    induction (tasks db) as [|t rows IH]; [reflexivity|].
    rewrite count_cons.
    replace (count (t :: rows)) with (1 + count rows)
      by (unfold count; cbn [List.length]; lia).
    destruct (str_in (status t) ["todo"; "inprogress"]); lia.
  - repeat split; apply count_nonneg.
Qed.

Lemma task_stats_add_up_witness :
  (forall t, In t (tasks five_tasks) -> In (status t) VALID_STATUSES)
  /\ total (get_task_stats five_tasks d2024_01_15)
     = todo (get_task_stats five_tasks d2024_01_15)
       + inprogress (get_task_stats five_tasks d2024_01_15)
       + done (get_task_stats five_tasks d2024_01_15)
       + blocked (get_task_stats five_tasks d2024_01_15).
Proof.
  assert (forall t, In t (tasks five_tasks) -> In (status t) VALID_STATUSES)
    as Hvalid.
  { intros t [<- | [<- | [<- | [<- | [<- | []]]]]]; cbn; tauto. }
  split; [exact Hvalid|].
  exact (proj1 (task_stats_add_up five_tasks d2024_01_15 Hvalid)).
Defined.

(** ** Create, update and delete against lookups *)

Lemma lookup_skip (before after : list Task) (t : Task) (tid : string) :
  task_id t <> tid ->
  List.filter (fun r => String.eqb (task_id r) tid) (before ++ t :: after)
  = List.filter (fun r => String.eqb (task_id r) tid) (before ++ after).
Proof.
  intros Hne. rewrite !List.filter_app. cbn [List.filter].
  now rewrite (proj2 (String.eqb_neq _ _) Hne).
Qed.

Lemma lookup_fresh (rows : list Task) (tid : string) :
  ~ In tid (List.map task_id rows) ->
  List.filter (fun r => String.eqb (task_id r) tid) rows = [].
Proof.
  intros Hfresh. induction rows as [|r rows IH]; [reflexivity|].
  cbn [List.filter].
  destruct (String.eqb (task_id r) tid) eqn:E.
  - apply String.eqb_eq in E. exfalso. apply Hfresh. left. exact E.
  - apply IH. intros H. apply Hfresh. now right.
Qed.

(** X7. After [create_task] with an id no stored task has, looking that id
    up returns the task just created, which carries the title, description,
    due date and parent given; every other id looks up as before, and the
    table has one row more. *)
Theorem create_then_get (db : Session) (new_id : string) (now now' : Z)
    (ti : string) (de : option string) (st pr : string)
    (du : option Z) (pa : option string) :
  ~ In new_id (List.map task_id (tasks db)) ->
  let r := create_task db new_id now now' ti de st pr du pa in
  get_task_by_id (fst r) new_id = Some (snd r)
  /\ task_id (snd r) = new_id /\ title (snd r) = ti
  /\ description (snd r) = de /\ due_date (snd r) = du
  /\ parent_task_id (snd r) = pa
  /\ (forall tid, tid <> new_id ->
        get_task_by_id (fst r) tid = get_task_by_id db tid)
  /\ count (tasks (fst r)) = count (tasks db) + 1.
Proof.
  intros Hfresh. cbn zeta. unfold create_task, get_task_by_id, query.
  cbn [fst snd tasks task_id title description due_date parent_task_id].
  split.
  { rewrite List.filter_app, (lookup_fresh _ _ Hfresh). cbn [List.filter task_id].
    now rewrite String.eqb_refl. }
  repeat (split; [reflexivity|]). split.
  - intros tid Hne. rewrite List.filter_app. cbn [List.filter task_id].
    rewrite (proj2 (String.eqb_neq new_id tid)) by congruence.
    now rewrite app_nil_r.
  - unfold count. rewrite List.length_app. cbn [List.length]. lia.
Qed.

Lemma create_then_get_witness :
  ~ In "n" (List.map task_id (tasks one_task))
  /\ get_task_by_id
       (fst (create_task one_task "n" 5 5 "new" None "todo" "high" None None)) "n"
     = Some (snd (create_task one_task "n" 5 5 "new" None "todo" "high" None None)).
Proof.
  assert (~ In "n" (List.map task_id (tasks one_task))) as Hfresh
    by (intros [H | []]; discriminate).
  split; [exact Hfresh|].
  exact (proj1 (create_then_get one_task "n" 5 5 "new" None "todo" "high"
                  None None Hfresh)).
Defined.

Lemma update_task_rows (db : Session) (tid : string) (old : Task)
    (ti de st pr : option string) (du : option Z) (pa : option string)
    (cd cp : bool) (now : Z) :
  wf_session db -> get_task_by_id db tid = Some old ->
  exists before after,
    tasks db = before ++ old :: after
    /\ update_task db tid ti de st pr du pa cd cp now
       = ({| tasks := before ++ apply_update old ti de st pr du pa cd cp now :: after;
             sqlite_sequence := sqlite_sequence db |},
          Some (apply_update old ti de st pr du pa cd cp now)).
Proof.
  intros (Hid & _ & _) Hget. unfold update_task. rewrite Hget.
  apply get_task_by_id_Some in Hget. destruct Hget as [Hin _].
  apply in_split in Hin. destruct Hin as (before & after & Hsplit).
  exists before, after. split; [exact Hsplit|].
  rewrite Hsplit. rewrite store_row_at; [reflexivity | | reflexivity].
  now rewrite <- Hsplit.
Qed.

(** X8. On a table as the schema keeps it, after [update_task] of a stored
    task, looking its id up returns the task as updated, which keeps its
    primary key, its id and its creation time; every other id looks up as
    before, the number of rows is unchanged and the table still meets the
    schema's constraints. *)
Theorem update_then_get (db : Session) (tid : string) (old : Task)
    (ti de st pr : option string) (du : option Z) (pa : option string)
    (cd cp : bool) (now : Z) :
  wf_session db -> get_task_by_id db tid = Some old ->
  let r := update_task db tid ti de st pr du pa cd cp now in
  exists new,
    snd r = Some new
    /\ get_task_by_id (fst r) tid = Some new
    /\ id new = id old /\ task_id new = tid /\ created_at new = created_at old
    /\ updated_at new = now
    /\ (forall tid', tid' <> tid ->
          get_task_by_id (fst r) tid' = get_task_by_id db tid')
    /\ count (tasks (fst r)) = count (tasks db)
    /\ wf_session (fst r).
Proof.
  intros Hwf Hget. cbn zeta.
  destruct (update_task_rows db tid old ti de st pr du pa cd cp now Hwf Hget)
    as (before & after & Hsplit & Hrun).
  rewrite Hrun. cbn [fst snd].
  pose proof (get_task_by_id_Some db tid old Hget) as [_ Htid].
  set (new := apply_update old ti de st pr du pa cd cp now).
  assert (List.map id (before ++ new :: after) = List.map id (tasks db)) as Hids
    by (rewrite Hsplit, !List.map_app; reflexivity).
  assert (List.map task_id (before ++ new :: after) = List.map task_id (tasks db))
    as Htids by (rewrite Hsplit, !List.map_app; reflexivity).
  destruct Hwf as (Hid & Hnd & Hseq).
  assert (wf_session {| tasks := before ++ new :: after;
                        sqlite_sequence := sqlite_sequence db |}) as Hwf'.
  { unfold wf_session. cbn [tasks sqlite_sequence]. rewrite Hids, Htids.
    split; [exact Hid|]. split; [exact Hnd|].
    intros t Ht. apply in_app_or in Ht. destruct Ht as [Ht | [<- | Ht]].
    - apply Hseq. rewrite Hsplit. apply in_or_app. now left.
    - change (id new) with (id old). apply Hseq. rewrite Hsplit.
      apply in_or_app. right. now left.
    - apply Hseq. rewrite Hsplit. apply in_or_app. right. now right. }
  exists new. split; [reflexivity|]. split.
  { rewrite <- Htid. change (task_id old) with (task_id new).
    apply get_task_by_id_stored.
    - exact (proj1 (proj2 Hwf')).
    - cbn [tasks]. apply in_or_app. right. now left. }
  split; [reflexivity|]. split; [exact Htid|]. split; [reflexivity|].
  split; [reflexivity|]. split; [|split; [|exact Hwf']].
  - intros tid' Hne. unfold get_task_by_id, query. cbn [tasks].
    rewrite Hsplit.
    rewrite (lookup_skip before after new tid')
      by (change (task_id new) with (task_id old); congruence).
    rewrite (lookup_skip before after old tid') by congruence.
    reflexivity.
  - unfold count. cbn [tasks]. rewrite Hsplit, !List.length_app. reflexivity.
Qed.

Lemma update_then_get_witness :
  wf_session one_task
  /\ get_task_by_id one_task "t1" = Some (row 1 "t1" "todo" "medium" None None 10)
  /\ exists new,
       get_task_by_id
         (fst (update_task one_task "t1" (Some "renamed") None (Some "done") None
                 None None false false 20)) "t1"
       = Some new
       /\ created_at new = 10.
Proof.
  assert (get_task_by_id one_task "t1"
          = Some (row 1 "t1" "todo" "medium" None None 10)) as Hget
    by reflexivity.
  split; [exact one_task_wf|]. split; [exact Hget|].
  destruct (update_then_get one_task "t1" _ (Some "renamed") None (Some "done")
              None None None false false 20 one_task_wf Hget)
    as (new & _ & Hlook & _ & _ & Hcr & _).
  exists new. split; [exact Hlook | exact Hcr].
Defined.

(** X9. What [update_task] does to the optional fields of a stored task: a
    clear-flag empties the due date or the parent reference even when a new
    value is passed with it; without the flag a passed value is stored and a
    missing one keeps the old; and since a missing description means no
    change, a description that is set can be replaced but never removed. *)
Theorem update_task_clear_and_keep (db : Session) (tid : string) (old : Task)
    (ti de st pr : option string) (du : option Z) (pa : option string)
    (cd cp : bool) (now : Z) :
  get_task_by_id db tid = Some old ->
  exists new,
    snd (update_task db tid ti de st pr du pa cd cp now) = Some new
    /\ (cd = true -> due_date new = None)
    /\ (cd = false -> due_date new = match du with Some d => Some d
                                                 | None => due_date old end)
    /\ (cp = true -> parent_task_id new = None)
    /\ (cp = false ->
        parent_task_id new = match pa with Some p => Some p
                                         | None => parent_task_id old end)
    /\ (description old <> None -> description new <> None)
    /\ (de = None -> description new = description old)
    /\ (ti = None -> title new = title old).
Proof.
  intros Hget. unfold update_task. rewrite Hget. cbn [snd].
  eexists. split; [reflexivity|]. unfold apply_update.
  cbn [due_date parent_task_id description title].
  split; [now intros ->|]. split; [now intros ->; destruct du|].
  split; [now intros ->|]. split; [now intros ->; destruct pa|].
  split; [destruct de; [discriminate | tauto]|].
  split; now intros ->.
Qed.

Lemma update_task_clear_witness :
  get_task_by_id five_tasks "t1"
  = Some (row 1 "t1" "todo" "medium" (Some d2024_01_01) None 1)
  /\ exists new,
       snd (update_task five_tasks "t1" None None None None (Some d2024_02_01)
              None true false 9) = Some new
       /\ due_date new = None.
Proof.
  assert (get_task_by_id five_tasks "t1"
          = Some (row 1 "t1" "todo" "medium" (Some d2024_01_01) None 1)) as Hget
    by reflexivity.
  split; [exact Hget|].
  destruct (update_task_clear_and_keep five_tasks "t1" _ None None None None
              (Some d2024_02_01) None true false 9 Hget)
    as (new & Hrun & Hclear & _).
  exists new. split; [exact Hrun | now apply Hclear].
Defined.

(** X10. [delete_task] returns true exactly when a stored task has the id
    and no stored task has it as parent reference, and the store is left as
    it was whenever it returns false; so a task that is its own parent is
    never deleted. *)
Theorem delete_task_true_iff (db : Session) (tid : string) :
  (snd (delete_task db tid) = true
   <-> (exists t, In t (tasks db) /\ task_id t = tid)
       /\ (forall c, In c (tasks db) -> parent_task_id c <> Some tid))
  /\ (snd (delete_task db tid) = false -> fst (delete_task db tid) = db)
  /\ (forall t, In t (tasks db) -> parent_task_id t = Some (task_id t) ->
        delete_task db (task_id t) = (db, false)).
Proof.
  split; [|split].
  - unfold delete_task.
    destruct (get_task_by_id db tid) as [t|] eqn:Hget.
    + apply get_task_by_id_Some in Hget.
      destruct (has_subtasks db tid) eqn:Hsub; cbn [snd].
      * split; [discriminate|]. intros [_ Hleaf].
        apply has_subtasks_spec in Hsub. destruct Hsub as (c & Hc & Hp).
        now destruct (Hleaf c Hc).
      * split; [intros _ | reflexivity].
        split; [now exists t | now apply has_subtasks_false].
    + cbn [snd]. split; [discriminate|]. intros [(t & Ht & Htid) _].
      exfalso. exact (proj1 (get_task_by_id_None db tid) Hget t Ht Htid).
  - unfold delete_task. destruct (get_task_by_id db tid); [|reflexivity].
    destruct (has_subtasks db tid); [reflexivity | discriminate].
  - intros t Hin Hself. apply delete_task_parent. now exists t.
Qed.

(** X11. On a table as the schema keeps it, after a [delete_task] that
    returned true the id is no longer found, every other id looks up as
    before, the table has one row less, and its primary keys and its ids are
    still distinct. *)
Theorem delete_then_get (db : Session) (tid : string) :
  wf_session db -> snd (delete_task db tid) = true ->
  let db' := fst (delete_task db tid) in
  get_task_by_id db' tid = None
  /\ (forall tid', tid' <> tid -> get_task_by_id db' tid' = get_task_by_id db tid')
  /\ count (tasks db') + 1 = count (tasks db)
  /\ List.NoDup (List.map id (tasks db'))
  /\ List.NoDup (List.map task_id (tasks db')).
Proof.
  intros Hwf Hdel. cbn zeta.
  pose proof (delete_task_wf db tid Hwf) as Hwf'.
  assert (exists t before after,
            tasks db = before ++ t :: after /\ task_id t = tid
            /\ delete_task db tid
               = ({| tasks := before ++ after;
                     sqlite_sequence := sqlite_sequence db |}, true))
    as (t & before & after & Hsplit & Htid & Hrun).
  { unfold delete_task in Hdel.
    destruct (get_task_by_id db tid) as [t|] eqn:Hget; [|discriminate].
    destruct (has_subtasks db tid) eqn:Hsub; [discriminate|].
    apply get_task_by_id_Some in Hget. destruct Hget as [Hin Htid].
    apply in_split in Hin. destruct Hin as (before & after & Hsplit).
    exists t, before, after. split; [exact Hsplit|]. split; [exact Htid|].
    rewrite <- Htid. apply delete_task_leaf; [exact Hwf | exact Hsplit|].
    rewrite Htid. now apply has_subtasks_false. }
  rewrite Hrun in *. cbn [fst] in *.
  split; [|split; [|split; [|split;
    [exact (proj1 Hwf') | exact (proj1 (proj2 Hwf'))]]]].
  - apply get_task_by_id_None. cbn [tasks]. intros r Hr Heq.
    destruct Hwf as (_ & Hnd & _). rewrite Hsplit, List.map_app in Hnd.
    cbn [List.map] in Hnd. apply List.NoDup_remove_2 in Hnd. apply Hnd.
    rewrite Htid, <- Heq, <- List.map_app. now apply in_map.
  - intros tid' Hne. unfold get_task_by_id, query. cbn [tasks].
    rewrite Hsplit, (lookup_skip before after t tid') by congruence.
    reflexivity.
  - unfold count. cbn [tasks]. rewrite Hsplit, !List.length_app.
    cbn [List.length]. lia.
Qed.

Lemma delete_then_get_witness :
  wf_session one_task /\ snd (delete_task one_task "t1") = true
  /\ get_task_by_id (fst (delete_task one_task "t1")) "t1" = None.
Proof.
  assert (snd (delete_task one_task "t1") = true) as Hdel by reflexivity.
  split; [exact one_task_wf|]. split; [exact Hdel|].
  exact (proj1 (delete_then_get one_task "t1" one_task_wf Hdel)).
Defined.

(** X12. [delete_task] keeps parent references whole: on a table as the
    schema keeps it in which every parent reference is the id of a stored
    task, the same holds after any [delete_task]. *)
Theorem delete_task_keeps_parents (db : Session) (tid : string) :
  wf_session db -> parents_resolve db ->
  parents_resolve (fst (delete_task db tid)).
Proof.
  intros Hwf Hres. unfold delete_task.
  destruct (get_task_by_id db tid) as [t|] eqn:Hget; [|exact Hres].
  destruct (has_subtasks db tid) eqn:Hsub; [exact Hres|].
  apply get_task_by_id_Some in Hget. destruct Hget as [Hin Htid].
  cbn [fst]. intros c p Hc Hp. cbn [tasks] in *.
  apply filter_In in Hc. destruct Hc as [Hc _].
  destruct (Hres c p Hc Hp) as (u & Hu & Hup).
  exists u. split; [|exact Hup]. apply filter_In. split; [exact Hu|].
  apply negb_true_iff, Z.eqb_neq. intros Hid.
  assert (u = t) as ->.
  { destruct Hwf as (Hnd & _ & _). clear - Hnd Hu Hin Hid.
    induction (tasks db) as [|r rows IH]; [destruct Hu|].
    cbn [List.map] in Hnd. inversion Hnd as [|? ? Hnotin Hnd']; subst.
    destruct Hu as [-> | Hu], Hin as [-> | Hin]; try reflexivity.
    - exfalso. apply Hnotin. rewrite Hid. now apply in_map.
    - exfalso. apply Hnotin. rewrite <- Hid. now apply in_map.
    - now apply IH. }
  apply (proj1 (has_subtasks_false db tid) Hsub c Hc). congruence.
Qed.

Lemma family_wf : wf_session family.
Proof. wf_concrete. Qed.

Lemma delete_task_keeps_parents_witness :
  wf_session family /\ parents_resolve family
  /\ parents_resolve (fst (delete_task family "c")).
Proof.
  assert (parents_resolve family) as Hres.
  { intros c p [<- | [<- | []]] Hp; [discriminate|].
    injection Hp as <-. eexists. split; [left; reflexivity | reflexivity]. }
  split; [exact family_wf|]. split; [exact Hres|].
  exact (delete_task_keeps_parents family "c" family_wf Hres).
Defined.

(** ** Focus Mode: closing the task shown *)

Lemma next_task_is_candidate (db : Session) (r : Task) :
  get_next_priority_task db = Some r -> In r (tasks db) /\ candidate r.
Proof.
  unfold get_next_priority_task, query, order_by. intros H.
  assert (In r (List.filter (fun t => str_in (status t) ["todo"; "inprogress"])
                  (tasks db))) as Hin.
  { apply (Permutation_in r (sorted_rows_perm next_cmp _)). unfold next_cmp.
    destruct (fold_right _ [] _) as [|h rest]; [discriminate|].
    injection H as ->. now left. }
  apply filter_In in Hin. now rewrite status_in_candidate in Hin.
Qed.

(** X13. On a table as the schema keeps it, when the task that Focus Mode
    shows is given the status done or blocked by [update_task], the next
    call of [get_next_priority_task] returns another task or none. *)
Theorem closing_next_task_moves_on (db : Session) (r : Task) (st : string)
    (now : Z) :
  wf_session db -> get_next_priority_task db = Some r ->
  st = "done" \/ st = "blocked" ->
  forall r',
    get_next_priority_task
      (fst (update_task db (task_id r) None None (Some st) None None None
              false false now)) = Some r' ->
    task_id r' <> task_id r.
Proof.
  intros Hwf Hnext Hst r' Hnext' Hsame.
  apply next_task_is_candidate in Hnext. destruct Hnext as [Hin _].
  pose proof (get_task_by_id_stored db r (proj1 (proj2 Hwf)) Hin) as Hget.
  destruct (update_task_rows db (task_id r) r None None (Some st) None None None
              false false now Hwf Hget) as (before & after & Hsplit & Hrun).
  rewrite Hrun in Hnext'. cbn [fst] in Hnext'.
  apply next_task_is_candidate in Hnext'. cbn [tasks] in Hnext'.
  destruct Hnext' as [Hin' Hcand].
  set (new := apply_update r None None (Some st) None None None false false now)
    in *.
  assert (status new = st) as Hnew.
  { unfold new, apply_update. cbn [status].
    destruct Hst as [-> | ->]; reflexivity. }
  assert (r' = new) as Heq.
  { destruct Hwf as (_ & Hnd & _). rewrite Hsplit, List.map_app in Hnd.
    cbn [List.map] in Hnd. apply List.NoDup_remove_2 in Hnd.
    apply in_app_or in Hin'. destruct Hin' as [H | [H | H]];
      [exfalso | now symmetry | exfalso];
      apply Hnd; rewrite <- Hsame; apply in_or_app; [left | right];
      now apply in_map. }
  unfold candidate in Hcand. rewrite Heq, Hnew in Hcand.
  destruct Hst as [-> | ->], Hcand as [H | H]; discriminate.
Qed.

Lemma closing_next_task_witness :
  wf_session family
  /\ get_next_priority_task family = Some (row 1 "p" "todo" "high" None None 1)
  /\ ("done" = "done" \/ "done" = "blocked")
  /\ get_next_priority_task
       (fst (update_task family "p" None None (Some "done") None None None
               false false 9))
     = Some (row 2 "c" "todo" "high" None (Some "p") 2)
  /\ "c" <> "p".
Proof.
  assert (get_next_priority_task family
          = Some (row 1 "p" "todo" "high" None None 1)) as Hnext
    by (vm_compute; reflexivity).
  assert (get_next_priority_task
            (fst (update_task family "p" None None (Some "done") None None None
                    false false 9))
          = Some (row 2 "c" "todo" "high" None (Some "p") 2)) as Hnext'
    by (vm_compute; reflexivity).
  split; [exact family_wf|]. split; [exact Hnext|].
  split; [now left|]. split; [exact Hnext'|].
  exact (closing_next_task_moves_on family _ "done" 9 family_wf Hnext
           (or_introl eq_refl) _ Hnext').
Defined.

(** ** The adapters on any reply *)

Lemma slice_to_nonempty (n : nat) (s : string) :
  s <> "" -> (1 <= String.length (slice_to (S n) s))%nat.
Proof. destruct s; [congruence|]. intros _. simpl. lia. Qed.

Lemma strip_of_empty (s : string) : strip s <> "" -> s <> "".
Proof. intros H ->. now apply H. Qed.

Lemma parse_draft_origin (repr : json -> string) (reply : gemini_reply)
    (draft : TaskDraft) :
  parse_task_input repr reply = Return (Some draft) ->
  exists members v,
    reply = response_json (JObj members) /\ members !! "title" = Some v
    /\ draft
       = {| gemini_utils.title := slice_to 255 (py_str repr v);
            gemini_utils.description := dict_get members "description";
            gemini_utils.priority :=
              match dict_get members "priority" with
              | JStr p =>
                  if str_in p ["low"; "medium"; "high"; "urgent"]
                  then p else "medium"
              | _ => "medium"
              end;
            gemini_utils.due_date := dict_get members "due_date" |}.
Proof.
  destruct reply as [| | |res]; try discriminate.
  unfold parse_task_input. cbn [call_gemini].
  destruct (truthy res); [|discriminate].
  destruct res as [| | | | |items|members]; cbn [py_in]; try discriminate.
  - destruct (str_contains _ _); discriminate.
  - destruct (existsb _ items); discriminate.
  - destruct (members !! "title") as [v|] eqn:Hget.
    + rewrite bool_decide_eq_true_2 by eauto. intros [= <-].
      now exists members, v.
    + rewrite bool_decide_eq_false_2 by apply is_Some_None. discriminate.
Qed.

(** X14. Whatever the reply, a draft that [parse_task_input] returns comes
    from a reply object with a title key, its title has at most 255
    characters and its priority is one of low, medium, high, urgent; so
    [create_task] stores that priority as it is. *)
Theorem parse_draft_always_valid (repr : json -> string) (reply : gemini_reply)
    (draft : TaskDraft) :
  parse_task_input repr reply = Return (Some draft) ->
  (exists members, reply = response_json (JObj members)
                   /\ is_Some (members !! "title"))
  /\ (String.length (gemini_utils.title draft) <= 255)%nat
  /\ In (gemini_utils.priority draft) VALID_PRIORITIES
  /\ forall db new_id now now' de st du pa,
       priority (snd (create_task db new_id now now' (gemini_utils.title draft)
                        de st (gemini_utils.priority draft) du pa))
       = gemini_utils.priority draft.
Proof.
  intros Hrun. apply parse_draft_origin in Hrun.
  destruct Hrun as (members & v & -> & Hget & ->).
  cbn [gemini_utils.title gemini_utils.priority].
  assert (In (match dict_get members "priority" with
              | JStr p =>
                  if str_in p ["low"; "medium"; "high"; "urgent"]
                  then p else "medium"
              | _ => "medium"
              end) VALID_PRIORITIES) as Hprio.
  { destruct (dict_get members "priority") as [| | | |p| |];
      try (cbn; tauto).
    destruct (str_in p ["low"; "medium"; "high"; "urgent"]) eqn:E;
      [now apply str_in_In | cbn; tauto]. }
  split; [exists members; split; [reflexivity | eauto]|].
  split; [apply slice_to_length|]. split; [exact Hprio|].
  intros db new_id now now' de st du pa. unfold create_task.
  cbn [snd priority]. now rewrite (proj2 (str_in_In _ _) Hprio).
Qed.

Lemma parse_draft_always_valid_witness :
  parse_task_input unused_repr (response_json (JObj call_mom))
  = Return (Some {| gemini_utils.title := "Call mom";
                    gemini_utils.description := JNull;
                    gemini_utils.priority := "urgent";
                    gemini_utils.due_date := JStr "2024-01-02" |})
  /\ In "urgent" VALID_PRIORITIES.
Proof.
  assert (parse_task_input unused_repr (response_json (JObj call_mom))
          = Return (Some {| gemini_utils.title := "Call mom";
                            gemini_utils.description := JNull;
                            gemini_utils.priority := "urgent";
                            gemini_utils.due_date := JStr "2024-01-02" |}))
    as Hrun by (vm_compute; reflexivity).
  split; [exact Hrun|].
  exact (proj1 (proj2 (proj2
           (parse_draft_always_valid unused_repr _ _ Hrun)))).
Defined.

Lemma breakdown_origin (repr : json -> string) (reply : gemini_reply)
    (kept : list string) :
  breakdown_task repr reply = Return (Some kept) ->
  exists members x rest,
    reply = response_json (JObj members)
    /\ members !! "sub_tasks" = Some (JList (x :: rest))
    /\ kept = clean_sub_tasks repr (x :: rest).
Proof.
  destruct reply as [| | |res]; try discriminate.
  unfold breakdown_task. cbn [call_gemini].
  destruct (truthy res); [|discriminate].
  destruct res as [| | | | |items|members]; cbn [py_in]; try discriminate.
  - destruct (str_contains _ _); discriminate.
  - destruct (existsb _ items); discriminate.
  - destruct (members !! "sub_tasks") as [v|] eqn:Hget.
    + rewrite bool_decide_eq_true_2 by eauto.
      destruct v as [| | | | |[|x rest]|]; try discriminate.
      intros [= <-]. now exists members, x, rest.
    + rewrite bool_decide_eq_false_2 by apply is_Some_None. discriminate.
Qed.

(** X15. Whatever the reply, a list that [breakdown_task] returns comes from
    a reply object whose [sub_tasks] is a list of one or more entries; it is
    no longer than that list, and each of its strings has at least one and
    at most 255 characters. *)
Theorem breakdown_entries_bounded (repr : json -> string) (reply : gemini_reply)
    (kept : list string) :
  breakdown_task repr reply = Return (Some kept) ->
  exists members entries,
    reply = response_json (JObj members)
    /\ members !! "sub_tasks" = Some (JList entries)
    /\ entries <> []
    /\ (List.length kept <= List.length entries)%nat
    /\ forall s, In s kept ->
         (1 <= String.length s)%nat /\ (String.length s <= 255)%nat.
Proof.
  intros Hrun. apply breakdown_origin in Hrun.
  destruct Hrun as (members & x & rest & -> & Hget & ->).
  exists members, (x :: rest). split; [reflexivity|]. split; [exact Hget|].
  split; [discriminate|]. unfold clean_sub_tasks. split.
  - rewrite List.length_map. apply List.filter_length_le.
  - intros s Hs. apply in_map_iff in Hs. destruct Hs as (e & <- & He).
    apply filter_In in He. destruct He as [_ He].
    apply andb_true_iff in He. destruct He as [_ He].
    apply negb_true_iff, String.eqb_neq, strip_of_empty in He.
    split; [now apply slice_to_nonempty | apply slice_to_length].
Qed.

Lemma breakdown_entries_bounded_witness :
  breakdown_task unused_repr milk_reply = Return (Some [" Buy milk "; "Call vet"])
  /\ forall s, In s [" Buy milk "; "Call vet"] ->
       (1 <= String.length s)%nat /\ (String.length s <= 255)%nat.
Proof.
  assert (breakdown_task unused_repr milk_reply
          = Return (Some [" Buy milk "; "Call vet"])) as Hrun
    by (vm_compute; reflexivity).
  split; [exact Hrun|].
  destruct (breakdown_entries_bounded unused_repr _ _ Hrun)
    as (_ & _ & _ & _ & _ & _ & Hall).
  exact Hall.
Defined.

(** X16. On a reply object [breakdown_task] never raises, and it returns
    nothing exactly when the object has no [sub_tasks] key or the value
    under it is not a list of one or more entries. *)
Theorem breakdown_object_none_iff (repr : json -> string)
    (members : gmap string json) :
  (forall e, breakdown_task repr (response_json (JObj members)) <> Raise e)
  /\ (breakdown_task repr (response_json (JObj members)) = Return None
      <-> ~ exists x rest, members !! "sub_tasks" = Some (JList (x :: rest))).
Proof.
  unfold breakdown_task. cbn [call_gemini].
  destruct (truthy (JObj members)) eqn:Htruthy.
  - cbn [py_in]. destruct (members !! "sub_tasks") as [v|] eqn:Hget.
    + rewrite bool_decide_eq_true_2 by eauto.
      destruct v as [| | | | |[|x rest]|];
        (split; [discriminate|]);
        try (split; [intros _ (x' & rest' & H); discriminate | reflexivity]).
      split; [discriminate|]. intros H. exfalso. apply H. eauto.
    + rewrite bool_decide_eq_false_2 by apply is_Some_None.
      split; [discriminate|].
      split; [intros _ (x & rest & H); discriminate | reflexivity].
  - split; [discriminate|]. split; [|reflexivity].
    intros _ (x & rest & H).
    now rewrite (object_with_key_truthy _ _ _ H) in Htruthy.
Qed.



(** ** The hierarchy view: children and roots *)

Lemma children_fold (all_tasks : list Task) (m : gmap string (list Task))
    (p : string) :
  fold_left
    (fun (m : gmap string (list Task)) task =>
       match app.parent_ref task with
       | Some q => <[q := default [] (m !! q) ++ [task]]> m
       | None => m
       end)
    all_tasks m !! p
  = match List.filter (child_of p) all_tasks with
    | [] => m !! p
    | kids => Some (default [] (m !! p) ++ kids)
    end.
Proof.
  revert m. induction all_tasks as [|t rest IH]; intros m; [reflexivity|].
  cbn [fold_left List.filter]. rewrite IH. unfold child_of at 2.
  destruct (app.parent_ref t) as [q|]; [|reflexivity].
  destruct (String.eqb q p) eqn:E.
  - apply String.eqb_eq in E. subst q. rewrite lookup_insert_eq.
    cbn [from_option Datatypes.id]. destruct (List.filter (child_of p) rest) as [|k kids].
    + reflexivity.
    + now rewrite <- List.app_assoc.
  - apply String.eqb_neq in E. now rewrite lookup_insert_ne.
Qed.

Lemma child_of_spec (p : string) (t : Task) :
  child_of p t = true <-> app.parent_ref t = Some p.
Proof.
  unfold child_of. destruct (app.parent_ref t) as [q|].
  - rewrite String.eqb_eq. split; congruence.
  - split; discriminate.
Qed.

Lemma children_map_lookup (all_tasks : list Task) (p : string) :
  app.children_map all_tasks !! p
  = match List.filter (child_of p) all_tasks with
    | [] => None
    | kids => Some kids
    end.
Proof.
  unfold app.children_map. rewrite children_fold, lookup_empty.
  now destruct (List.filter (child_of p) all_tasks).
Qed.

(** X18. [children_map] of the hierarchy view has, under an id, exactly the
    given tasks whose parent reference is that id, in the order given; an
    id that no task refers to has no entry, and no entry is an empty
    list. *)
Theorem children_map_groups (all_tasks : list Task) (p : string) :
  (app.children_map all_tasks !! p = None
   <-> forall t, In t all_tasks -> app.parent_ref t <> Some p)
  /\ (forall kids, app.children_map all_tasks !! p = Some kids ->
        kids = List.filter (child_of p) all_tasks /\ kids <> []
        /\ forall t, In t kids <-> In t all_tasks /\ app.parent_ref t = Some p).
Proof.
  rewrite children_map_lookup. split.
  - split.
    + intros H t Ht Hp.
      assert (In t (List.filter (child_of p) all_tasks)) as Hin
        by (apply filter_In; split; [exact Ht | now apply child_of_spec]).
      destruct (List.filter (child_of p) all_tasks); [destruct Hin | discriminate].
    + intros H. destruct (List.filter (child_of p) all_tasks) as [|k kids] eqn:E;
        [reflexivity|].
      assert (In k (List.filter (child_of p) all_tasks)) as Hin
        by (rewrite E; now left).
      apply filter_In in Hin. destruct Hin as [Hk Hc].
      apply child_of_spec in Hc. now destruct (H k Hk).
  - intros kids H.
    assert (kids = List.filter (child_of p) all_tasks /\ kids <> []) as [-> Hne].
    { destruct (List.filter (child_of p) all_tasks); [discriminate|].
      injection H as <-. split; [reflexivity | discriminate]. }
    split; [reflexivity|]. split; [exact Hne|].
    intros t. rewrite filter_In, child_of_spec. reflexivity.
Qed.

Lemma classic_task_with_id (all_tasks : list Task) (p : string) :
  (exists u, In u all_tasks /\ task_id u = p)
  \/ ~ (exists u, In u all_tasks /\ task_id u = p).
Proof.
  induction all_tasks as [|t rest IH].
  - right. intros (u & [] & _).
  - destruct (String.eqb (task_id t) p) eqn:E.
    + apply String.eqb_eq in E. left. exists t. split; [now left | exact E].
    + apply String.eqb_neq in E. destruct IH as [(u & Hu & Hk) | Hno].
      * left. exists u. split; [now right | exact Hk].
      * right. intros (u & [<- | Hu] & Hk); [now apply E|].
        apply Hno. now exists u.
Qed.

Lemma root_tasks_iff (all_tasks : list Task) (t : Task) :
  In t (app.root_tasks all_tasks)
  <-> In t all_tasks
      /\ (app.parent_ref t = None
          \/ exists p, app.parent_ref t = Some p
               /\ ~ exists u, In u all_tasks /\ task_id u = p).
Proof.
  unfold app.root_tasks. rewrite filter_In. apply and_iff_compat_l.
  destruct (app.parent_ref t) as [p|].
  - rewrite negb_true_iff, bool_decide_eq_false.
    unfold app.tasks_by_id. rewrite tasks_by_id_keys, lookup_empty. split.
    + intros H. right. exists p. split; [reflexivity|].
      intros Hex. apply H. now right.
    + intros [H | (p' & [= <-] & H)]; [discriminate|].
      intros [Hs | Hex]; [now apply is_Some_None in Hs | now apply H].
  - split; [now left | reflexivity].
Qed.

(** X19. The hierarchy view splits the given tasks in two: each of them is
    either one of the roots or one of the children listed in [children_map]
    under the id of a given task, and never both. *)
Theorem roots_and_children_split (all_tasks : list Task) (t : Task) :
  In t all_tasks ->
  let is_child :=
    exists u kids, In u all_tasks
      /\ app.children_map all_tasks !! task_id u = Some kids /\ In t kids in
  (In t (app.root_tasks all_tasks) \/ is_child)
  /\ ~ (In t (app.root_tasks all_tasks) /\ is_child).
Proof.
  intros Hin. cbn zeta. split.
  - destruct (app.parent_ref t) as [p|] eqn:Hp.
    + destruct (classic_task_with_id all_tasks p) as [(u & Hu & Hk) | Hnone].
      * right. exists u, (List.filter (child_of p) all_tasks).
        rewrite Hk, children_map_lookup.
        assert (In t (List.filter (child_of p) all_tasks)) as Hkid
          by (apply filter_In; split; [exact Hin | now apply child_of_spec]).
        split; [exact Hu|]. split; [|exact Hkid].
        now destruct (List.filter (child_of p) all_tasks).
      * left. apply root_tasks_iff. split; [exact Hin|]. right.
        exists p. split; [exact Hp | exact Hnone].
    + left. apply root_tasks_iff. split; [exact Hin | now left].
  - intros [Hroot (u & kids & Hu & Hmap & Hkid)].
    rewrite children_map_lookup in Hmap.
    assert (In t (List.filter (child_of (task_id u)) all_tasks)) as Hf.
    { destruct (List.filter (child_of (task_id u)) all_tasks);
        [discriminate | injection Hmap as <-; exact Hkid]. }
    apply filter_In in Hf. destruct Hf as [_ Hc]. apply child_of_spec in Hc.
    apply root_tasks_iff in Hroot.
    destruct Hroot as [_ [Hnone | (p & Hp & Hno)]]; [congruence|].
    apply Hno. exists u. split; [exact Hu | congruence].
Qed.

Lemma roots_and_children_split_witness :
  In orphan [row 1 "top" "done" "low" None None 1; orphan]
  /\ In orphan (app.root_tasks [row 1 "top" "done" "low" None None 1; orphan]).
Proof.
  assert (In orphan [row 1 "top" "done" "low" None None 1; orphan]) as Hin
    by (right; now left).
  split; [exact Hin|].
  destruct (proj1 (roots_and_children_split _ orphan Hin))
    as [Hroot | (u & kids & Hu & Hmap & _)]; [exact Hroot|].
  exfalso. destruct Hu as [<- | [<- | []]]; vm_compute in Hmap; discriminate.
Defined.

(** ** The task list under a status filter *)

Lemma get_tasks_by_status_In (db : Session) (wanted : string) (t : Task) :
  In t (get_tasks_by_status db wanted) <-> In t (tasks db) /\ status t = wanted.
Proof.
  unfold get_tasks_by_status, query.
  destruct (order_by_desc_created
              (List.filter (fun t => String.eqb (status t) wanted) (tasks db)))
    as [Hperm _].
  assert (In t (List.filter (fun t => String.eqb (status t) wanted) (tasks db))
          <-> In t (tasks db) /\ status t = wanted) as Hfilter
    by (rewrite filter_In, String.eqb_eq; reflexivity).
  rewrite <- Hfilter. split.
  - apply (Permutation_in _ Hperm).
  - apply (Permutation_in _ (Permutation_sym Hperm)).
Qed.

Lemma status_map_get_values (label wanted : string) :
  app.status_map_get label = Some wanted ->
  In wanted VALID_STATUSES /\ wanted <> "".
Proof.
  unfold app.status_map_get.
  repeat (destruct (String.eqb label _);
          [intros [= <-]; split; [cbn; tauto | discriminate]|]).
  discriminate.
Qed.

(** X20. Under one of the four status labels the task list shows exactly
    the stored tasks with the label's status; a task shown whose parent has
    another status, or is not stored, is laid out as a root of the
    hierarchy. *)
Theorem filtered_list_roots (db : Session) (label wanted : string) :
  app.status_map_get label = Some wanted ->
  (forall t, In t (app.listed_tasks db label)
             <-> In t (tasks db) /\ status t = wanted)
  /\ (forall t p,
        In t (app.listed_tasks db label) -> parent_task_id t = Some p ->
        (forall u, In u (tasks db) -> task_id u = p -> status u <> wanted) ->
        In t (app.root_tasks (app.listed_tasks db label))).
Proof.
  intros Hlabel. pose proof (status_map_get_values _ _ Hlabel) as [_ Hne].
  unfold app.listed_tasks. rewrite Hlabel.
  rewrite (proj2 (String.eqb_neq wanted "") Hne).
  split; [intros t; apply get_tasks_by_status_In|].
  intros t p Hin Hp Hother. apply root_tasks_iff. split; [exact Hin|].
  unfold app.parent_ref. rewrite Hp.
  destruct (String.eqb p ""); [now left|].
  right. exists p. split; [reflexivity|].
  intros (u & Hu & Hk). apply get_tasks_by_status_In in Hu.
  destruct Hu as [Hu Hs]. now apply (Hother u Hu Hk).
Qed.

Lemma filtered_list_roots_witness :
  app.status_map_get "Done" = Some "done"
  /\ In (row 4 "t4" "done" "urgent" (Some d2023_01_01) None 4)
       (app.root_tasks (app.listed_tasks five_tasks "Done")).
Proof.
  assert (app.status_map_get "Done" = Some "done") as Hlabel by reflexivity.
  split; [exact Hlabel|].
  destruct (filtered_list_roots five_tasks "Done" "done" Hlabel) as [Hmem _].
  apply root_tasks_In; [|reflexivity].
  apply Hmem. split; [|reflexivity].
  right. right. right. now left.
Defined.

(** ** Two button handlers *)

Lemma create_sub_tasks_rows (task : Task) (fresh : nat -> string * (Z * Z))
    (titles : list string) :
  forall (db : Session) (i : nat),
  exists kids,
    tasks (app.create_sub_tasks db task fresh i titles) = tasks db ++ kids
    /\ List.map title kids = titles
    /\ forall c, In c kids ->
         parent_task_id c = Some (task_id task) /\ status c = "todo"
         /\ description c = None /\ due_date c = None
         /\ priority c = (if str_in (priority task) VALID_PRIORITIES
                          then priority task else "medium").
Proof.
  induction titles as [|ti titles IH]; intros db i; cbn [app.create_sub_tasks].
  - exists []. split; [now rewrite app_nil_r|]. split; [reflexivity|].
    intros c [].
  - destruct (fresh i) as [new_id [nc nu]].
    destruct (IH (fst (create_task db new_id nc nu ti None "todo"
                         (priority task) None (Some (task_id task)))) (S i))
      as (kids & Hrows & Htitles & Hkids).
    eexists (_ :: kids). split; [|split].
    + rewrite Hrows. unfold create_task. cbn [fst tasks].
      rewrite <- List.app_assoc. reflexivity.
    + cbn [List.map title]. now rewrite Htitles.
    + intros c [<- | Hc]; [|now apply Hkids].
      cbn [parent_task_id status description due_date priority].
      repeat split.
Qed.

(** X21. The Create All button of the breakdown form stores one new task
    per suggested title, in their order after the rows already there, each
    with the broken-down task as parent, status todo, no description and no
    due date, and with the parent's priority when that is a valid one; it
    resets the suggestions, and then ends in a TypeError, taking the length
    of the suggestions it has just reset, before the success message. With
    one title or more the parent can then no longer be deleted. *)
Theorem create_all_stores_then_raises (db : Session) (state : app.SessionState)
    (task : Task) (fresh : nat -> string * (Z * Z)) (titles : list string) :
  app.breakdown_subtasks state = Some titles ->
  let out := app.create_all_clicked db state task fresh in
  snd out = Raise TypeError
  /\ app.breakdown_subtasks (snd (fst out)) = None
  /\ app.breakdown_task_id (snd (fst out)) = None
  /\ (exists kids,
        tasks (fst (fst out)) = tasks db ++ kids
        /\ List.map title kids = titles
        /\ forall c, In c kids ->
             parent_task_id c = Some (task_id task) /\ status c = "todo"
             /\ description c = None /\ due_date c = None
             /\ (In (priority task) VALID_PRIORITIES ->
                 priority c = priority task))
  /\ (titles <> [] ->
      delete_task (fst (fst out)) (task_id task) = (fst (fst out), false)).
Proof.
  intros Hstate. cbn zeta. unfold app.create_all_clicked. rewrite Hstate.
  cbn [app.breakdown_subtasks app.breakdown_task_id app.py_len fst snd].
  destruct (create_sub_tasks_rows task fresh titles db 0%nat)
    as (kids & Hrows & Htitles & Hkids).
  split; [reflexivity|]. split; [reflexivity|]. split; [reflexivity|].
  split.
  - exists kids. split; [exact Hrows|]. split; [exact Htitles|].
    intros c Hc. destruct (Hkids c Hc) as (H1 & H2 & H3 & H4 & H5).
    repeat (split; [assumption|]).
    intros Hvalid. now rewrite (proj2 (str_in_In _ _) Hvalid) in H5.
  - intros Hne. apply delete_task_parent.
    destruct kids as [|c kids]; [now destruct titles|].
    exists c. split; [rewrite Hrows; apply in_or_app; right; now left|].
    apply (Hkids c). now left.
Qed.

Lemma create_all_witness :
  app.breakdown_subtasks suggested = Some ["Buy milk"; "Call vet"]
  /\ snd (app.create_all_clicked family suggested
            (row 1 "p" "todo" "high" None None 1) fresh_ids)
     = Raise TypeError
  /\ count (tasks (fst (fst (app.create_all_clicked family suggested
                               (row 1 "p" "todo" "high" None None 1) fresh_ids))))
     = 4.
Proof.
  assert (app.breakdown_subtasks suggested = Some ["Buy milk"; "Call vet"])
    as Hstate by reflexivity.
  split; [exact Hstate|].
  split; [|vm_compute; reflexivity].
  exact (proj1 (create_all_stores_then_raises family suggested
                  (row 1 "p" "todo" "high" None None 1) fresh_ids _ Hstate)).
Defined.

Lemma update_task_lookup (db : Session) (tid : string) (old : Task)
    (ti de st pr : option string) (du : option Z) (pa : option string)
    (cd cp : bool) (now : Z) :
  wf_session db -> get_task_by_id db tid = Some old ->
  get_task_by_id (fst (update_task db tid ti de st pr du pa cd cp now)) tid
  = Some (apply_update old ti de st pr du pa cd cp now).
Proof.
  intros Hwf Hget.
  destruct (update_task_rows db tid old ti de st pr du pa cd cp now Hwf Hget)
    as (before & after & Hsplit & Hrun).
  rewrite Hrun. cbn [fst].
  pose proof (get_task_by_id_Some db tid old Hget) as [_ Htid].
  rewrite <- Htid.
  change (task_id old)
    with (task_id (apply_update old ti de st pr du pa cd cp now)).
  apply get_task_by_id_stored; cbn [tasks].
  - destruct Hwf as (_ & Hnd & _). rewrite Hsplit in Hnd.
    now rewrite !List.map_app in *.
  - apply in_or_app. right. now left.
Qed.

(** X22. The Save button of the edit form, on a table as the schema keeps
    it: with a blank title nothing is stored and the form stays open;
    otherwise the stored task gets the trimmed title and the form closes.
    An emptied description box leaves the stored description as it was, the
    parent reference is never touched, ticking Clear due date removes the
    due date whatever date is chosen, and with no date chosen and the box
    not ticked the stored due date stays. *)
Theorem save_clicked_effects (db : Session) (state : app.SessionState)
    (task old : Task) (ti de st pr : string) (due : option Z)
    (clear_due : bool) (now : Z) :
  wf_session db -> get_task_by_id db (task_id task) = Some old ->
  let out := app.save_clicked db state task ti de st pr due clear_due now in
  (strip ti = "" -> out = (db, state, false))
  /\ (strip ti <> "" ->
      snd out = true
      /\ app.editing_task_id (snd (fst out)) = None
      /\ exists new,
           get_task_by_id (fst (fst out)) (task_id task) = Some new
           /\ title new = strip ti
           /\ (de = "" -> description new = description old)
           /\ (de <> "" -> description new = Some (strip de))
           /\ parent_task_id new = parent_task_id old
           /\ (clear_due = true -> due_date new = None)
           /\ (clear_due = false -> due = None -> due_date new = due_date old)
           /\ (clear_due = false -> forall day, due = Some day ->
                 due_date new = Some (app.midnight_utc day))).
Proof.
  intros Hwf Hget. cbn zeta. unfold app.save_clicked. split.
  - intros ->. reflexivity.
  - intros Hti. rewrite (proj2 (String.eqb_neq _ _) Hti). cbn [negb fst snd].
    split; [reflexivity|]. split; [reflexivity|].
    eexists.
    split; [exact (update_task_lookup db (task_id task) old _ _ _ _ _ _ _ _ now
                     Hwf Hget)|].
    unfold apply_update.
    cbn [title description parent_task_id due_date].
    split; [reflexivity|].
    split; [intros ->; reflexivity|].
    split; [intros Hde; now rewrite (proj2 (String.eqb_neq _ _) Hde)|].
    split; [reflexivity|].
    split; [now intros ->|].
    split; [intros -> ->; reflexivity|].
    intros -> day ->. reflexivity.
Qed.

Lemma save_clicked_witness :
  wf_session five_tasks
  /\ get_task_by_id five_tasks "t1"
     = Some (row 1 "t1" "todo" "medium" (Some d2024_01_01) None 1)
  /\ app.save_clicked five_tasks suggested
       (row 1 "t1" "todo" "medium" (Some d2024_01_01) None 1)
       "   " "text" "done" "high" None false 9
     = (five_tasks, suggested, false).
Proof.
  assert (wf_session five_tasks) as Hwf by wf_concrete.
  assert (get_task_by_id five_tasks "t1"
          = Some (row 1 "t1" "todo" "medium" (Some d2024_01_01) None 1)) as Hget
    by reflexivity.
  split; [exact Hwf|]. split; [exact Hget|].
  apply (proj1 (save_clicked_effects five_tasks suggested
                  (row 1 "t1" "todo" "medium" (Some d2024_01_01) None 1)
                  (row 1 "t1" "todo" "medium" (Some d2024_01_01) None 1)
                  "   " "text" "done" "high" None false 9 Hwf Hget)).
  reflexivity.
Defined.
